(** * GraphQL explorer gateway (server.py): model and verified properties

    The module keeps one process-wide connection holder, [graphql_client],
    and exposes five operations to the tool host: [setup_connection],
    [execute_query], [get_schema], [get_type_info] and [list_types].
    Parsing, transport and schema introspection belong to the gql library;
    here that library is a parameter ([Engine]) whose calls thread an
    abstract [World] and are recorded in a call log.

    Python [str] values are modelled by [string], read as sequences of the
    code points U+0000..U+00FF.  Exceptions are the instances of Python's
    [Exception]; interpreter-level signals that are not [Exception]s (task
    cancellation, interpreter exit) are outside the model.  Calls are
    sequential: every [await] runs to completion before the next statement. *)

From Stdlib Require Import Ascii String.
From stdpp Require Import base strings list gmap sorting pretty.

Set Warnings "-register-all".

(** ** Python strings *)

Module PyStr.

Definition LF : ascii := "010"%char.
Definition TAB : ascii := "009"%char.
Definition CR : ascii := "013"%char.
Definition SQUOTE : ascii := "039"%char.
Definition DQUOTE : ascii := "034"%char.
Definition BACKSLASH : ascii := "092"%char.

(** The one-character string holding a line feed, Python's ["\n"]. *)
Definition NL : string := String LF EmptyString.

(** [c.lower()] for one code point below U+0100: the ASCII capitals and
    the Latin-1 capitals U+00C0..U+00DE (U+00D7, the multiplication sign,
    is not a letter) move up by 32. *)
Definition lower_char (c : ascii) : ascii :=
  let n := nat_of_ascii c in
  if ((65 <=? n) && (n <=? 90)) || ((192 <=? n) && (n <=? 222) && negb (n =? 215))
  then ascii_of_nat (n + 32)
  else c.

(** [s.lower()] *)
Fixpoint lower (s : string) : string :=
  match s with
  | EmptyString => EmptyString
  | String c s' => String (lower_char c) (lower s')
  end.

(** [needle in hay] on strings: some suffix of [hay] starts with [needle]. *)
Fixpoint contains (needle hay : string) : bool :=
  String.prefix needle hay ||
  match hay with
  | EmptyString => false
  | String _ hay' => contains needle hay'
  end.

(** [sep.join(parts)] *)
Definition join (sep : string) (parts : list string) : string :=
  String.concat sep parts.

(** [sorted(names)] on strings: Python orders [str] by code points,
    which is [String.le]; the order is total and antisymmetric, so every
    sorting algorithm returns the same list. *)
Definition sorted (names : list string) : list string :=
  merge_sort String.le names.

(** Truth value of an optional [str]: [None] and the empty string are false. *)
Definition truthy (o : option string) : bool :=
  match o with
  | Some (String _ _) => true
  | _ => false
  end.

Definition char_in (c : ascii) (s : string) : bool :=
  bool_decide (c ∈ list_ascii_of_string s).

Definition hex_digit (n : nat) : ascii :=
  match n with
  | 0 => "0" | 1 => "1" | 2 => "2" | 3 => "3" | 4 => "4" | 5 => "5"
  | 6 => "6" | 7 => "7" | 8 => "8" | 9 => "9" | 10 => "a" | 11 => "b"
  | 12 => "c" | 13 => "d" | 14 => "e" | _ => "f"
  end%char.

(** The escape [\xhh] of a code point below U+0100. *)
Definition hex_escape (n : nat) : string :=
  String BACKSLASH (String "x"%char
    (String (hex_digit (n / 16)) (String (hex_digit (n mod 16)) EmptyString))).

(** [str.isprintable] below U+0100: the controls U+0000..U+001F and
    U+007F..U+009F, the no-break space U+00A0 and the soft hyphen U+00AD
    are not printable. *)
Definition printable (n : nat) : bool :=
  (32 <=? n) && negb ((127 <=? n) && (n <=? 160)) && negb (n =? 173).

(** One character of [repr(s)], given the quote that delimits the result. *)
Definition repr_char (quote c : ascii) : string :=
  let n := nat_of_ascii c in
  if bool_decide (c = quote) || bool_decide (c = BACKSLASH)
  then String BACKSLASH (String c EmptyString)
  else if bool_decide (c = TAB) then String BACKSLASH (String "t"%char EmptyString)
  else if bool_decide (c = LF) then String BACKSLASH (String "n"%char EmptyString)
  else if bool_decide (c = CR) then String BACKSLASH (String "r"%char EmptyString)
  else if printable n then String c EmptyString
  else hex_escape n.

Fixpoint repr_body (quote : ascii) (s : string) : string :=
  match s with
  | EmptyString => EmptyString
  | String c s' => repr_char quote c +:+ repr_body quote s'
  end.

(** [repr(s)] for a string: single quotes, unless the string holds a
    single quote and no double quote. *)
Definition repr (s : string) : string :=
  let quote := if char_in SQUOTE s && negb (char_in DQUOTE s) then DQUOTE else SQUOTE in
  String quote (repr_body quote s +:+ String quote EmptyString).

End PyStr.

(** ** Python values that cross the gateway *)

(** JSON-shaped values: what a decoded GraphQL response holds, and what a
    caller passes as variables.  A dict keeps its items in insertion order.
    Floating-point numbers are carried by their [repr] text. *)
Inductive pyval : Type :=
| PNone
| PBool (b : bool)
| PInt (z : Z)
| PFloat (text : string)
| PStr (s : string)
| PList (items : list pyval)
| PDict (items : list (string * pyval)).

Definition pydict : Type := list (string * pyval).

(** [repr(v)] *)
Fixpoint py_repr (v : pyval) : string :=
  match v with
  | PNone => "None"
  | PBool true => "True"
  | PBool false => "False"
  | PInt z => pretty z
  | PFloat text => text
  | PStr s => PyStr.repr s
  | PList items => "[" +:+ PyStr.join ", " (map py_repr items) +:+ "]"
  | PDict items =>
      "{" +:+ PyStr.join ", "
                (map (λ kv, PyStr.repr (fst kv) +:+ ": " +:+ py_repr (snd kv)) items)
          +:+ "}"
  end.

(** [str(d)] for a dict is its [repr]. *)
Definition py_str (d : pydict) : string := py_repr (PDict d).

(** ** Exceptions *)

(** The classes the module tells apart: [except TransportQueryError] comes
    first, [except Exception] takes every other one. *)
Inductive exn_class : Type :=
| TransportQueryError
| AttributeError
| OtherException.

(** An exception with its message, [str(e)]. *)
Record exn : Type := Exn { class_of : exn_class; str_of : string }.

Global Instance exn_class_eq_dec : EqDecision exn_class.
Proof. solve_decision. Defined.

(** ** A state monad with exceptions *)

Inductive result (A : Type) : Type :=
| Ok (a : A)
| Raised (e : exn).
Arguments Ok {A} a.
Arguments Raised {A} e.

Definition M (S A : Type) : Type := S → result A * S.

Definition ret {S A} (a : A) : M S A := λ s, (Ok a, s).
Definition raise {S A} (e : exn) : M S A := λ s, (Raised e, s).
Definition bind {S A B} (m : M S A) (k : A → M S B) : M S B :=
  λ s, match m s with
       | (Ok a, s') => k a s'
       | (Raised e, s') => (Raised e, s')
       end.
(** [try: m  except ... as e: handler e] *)
Definition try_except {S A} (m : M S A) (handler : exn → M S A) : M S A :=
  λ s, match m s with
       | (Ok a, s') => (Ok a, s')
       | (Raised e, s') => handler e s'
       end.
Definition get {S} : M S S := λ s, (Ok s, s).
Definition modify {S} (f : S → S) : M S unit := λ s, (Ok tt, f s).

Declare Scope py_scope.
Delimit Scope py_scope with py.
Notation "x <- m ;; k" := (bind m (λ x, k))
  (at level 100, m at next level, right associativity) : py_scope.
Notation "m ;;; k" := (bind m (λ _, k))
  (at level 100, right associativity) : py_scope.

(** ** The gql library as a parameter *)

(** [AIOHTTPTransport(url=..., headers=...)]: the constructor stores its
    arguments and touches no network. *)
Record AIOHTTPTransport : Type :=
  { url : string; transport_headers : option (gmap string string) }.

Section Gateway.

(** [World] is whatever the network and the remote endpoint are;
    [DocumentNode] the parsed query; [GraphQLNamedType] a type definition
    of a schema; [Client] the state of a gql [Client] object. *)
Context {World DocumentNode GraphQLNamedType Client : Type}.

(** The part of a [GraphQLSchema] the module reads: its type registry. *)
Record GraphQLSchema : Type := { type_map : gmap string GraphQLNamedType }.

(** [schema.get_type(name)] is [type_map.get(name)]. *)
Definition get_type (schema : GraphQLSchema) (name : string) : option GraphQLNamedType :=
  type_map schema !! name.

(** What the module calls in the library.  A call on a [Client] object
    returns the object's next state; a session call that raises returns
    the exception. Leaving the [async with] block belongs to the last call
    made inside it. *)
Record Engine : Type := {
  (** [gql(query)]: parse the text, or raise *)
  gql : string → exn + DocumentNode;
  (** [Client(transport=t, fetch_schema_from_transport=True)] *)
  new_Client : AIOHTTPTransport → Client;
  (** [client.schema] *)
  schema : Client → option GraphQLSchema;
  (** [async with client as session], up to the body *)
  session_enter : Client → World → option exn * Client * World;
  (** [await session.fetch_schema()] *)
  session_fetch_schema : Client → World → option exn * Client * World;
  (** [await session.execute(document, variable_values=variables)] *)
  session_execute :
    Client → DocumentNode → option pydict → World → (exn + pydict) * Client * World;
  (** [str(schema)] and [str(type_def)] *)
  str_schema : GraphQLSchema → string;
  str_type : GraphQLNamedType → string
}.

(** The library calls the module makes, in the order it makes them. *)
Inductive engine_call : Type :=
| CallTransport (url : string) (headers : option (gmap string string))
| CallClient (t : AIOHTTPTransport)
| CallEnter
| CallFetchSchema
| CallGql (query : string)
| CallExecute (document : DocumentNode) (variables : option pydict).

(** ** Data model *)

(** [class GraphQLClient], as [__init__] lays it out. *)
Record GraphQLClient : Type := {
  endpoint_url : string;
  headers : option (gmap string string);
  transport : option AIOHTTPTransport;
  client : option Client
}.

(** [GraphQLClient(endpoint_url, headers)] *)
Definition GraphQLClient_init (endpoint_url : string)
    (headers : option (gmap string string)) : GraphQLClient :=
  {| endpoint_url := endpoint_url; headers := headers;
     transport := None; client := None |}.

(** The process: the module-level [graphql_client], the outside world and
    the log of library calls. *)
Record state : Type := {
  graphql_client : option GraphQLClient;
  world : World;
  calls : list engine_call
}.

(** The state when the module has been loaded: [graphql_client = None]. *)
Definition loaded (w : World) : state :=
  {| graphql_client := None; world := w; calls := [] |}.

Variable E : Engine.

Local Open Scope py_scope.

(** ** Access to the object bound to [graphql_client]

    The module calls the methods of [GraphQLClient] only as
    [graphql_client.method(...)]: inside a method, [self] is the object the
    holder is bound to, and an assignment to [self.x] changes that object. *)

Definition attribute_error (attr : string) : exn :=
  Exn AttributeError ("'NoneType' object has no attribute '" +:+ attr +:+ "'").

Definition bind_holder (o : option GraphQLClient) : M state unit :=
  modify (λ s, {| graphql_client := o; world := world s; calls := calls s |}).

Definition self (attr : string) : M state GraphQLClient :=
  s <- get ;;
  match graphql_client s with
  | Some c => ret c
  | None => raise (attribute_error attr)
  end.

Definition set_transport (t : AIOHTTPTransport) : M state unit :=
  c <- self "transport" ;;
  bind_holder (Some {| endpoint_url := endpoint_url c; headers := headers c;
                       transport := Some t; client := client c |}).

Definition set_client (cl : Client) : M state unit :=
  c <- self "client" ;;
  bind_holder (Some {| endpoint_url := endpoint_url c; headers := headers c;
                       transport := transport c; client := Some cl |}).

(** [self.client], an object: [None] has none of the attributes used on it. *)
Definition self_client (attr : string) : M state Client :=
  c <- self "client" ;;
  match client c with
  | Some cl => ret cl
  | None => raise (attribute_error attr)
  end.

(** ** Library calls, logged *)

Definition log (c : engine_call) : M state unit :=
  modify (λ s, {| graphql_client := graphql_client s; world := world s;
                  calls := calls s ++ [c] |}).

Definition set_world (w : World) : M state unit :=
  modify (λ s, {| graphql_client := graphql_client s; world := w; calls := calls s |}).

Definition AIOHTTPTransport_new (u : string) (h : option (gmap string string))
    : M state AIOHTTPTransport :=
  log (CallTransport u h) ;;;
  ret {| url := u; transport_headers := h |}.

Definition Client_new (t : AIOHTTPTransport) : M state Client :=
  log (CallClient t) ;;;
  ret (new_Client E t).

(** Run a session call on [self.client]: the object takes its next state,
    the world moves on, and the exception, if any, is raised. *)
Definition on_session {A} (attr : string) (c : engine_call)
    (f : Client → World → A * Client * World) : M state A :=
  cl <- self_client attr ;;
  log c ;;;
  s <- get ;;
  let '(a, cl', w') := f cl (world s) in
  set_client cl' ;;;
  set_world w' ;;;
  ret a.

Definition raise_if (o : option exn) : M state unit :=
  match o with
  | Some e => raise e
  | None => ret tt
  end.

(** [async with self.client as session:] *)
Definition enter_session : M state unit :=
  o <- on_session "__aenter__" CallEnter (session_enter E) ;;
  raise_if o.

(** [await session.fetch_schema()] *)
Definition fetch_schema : M state unit :=
  o <- on_session "fetch_schema" CallFetchSchema (session_fetch_schema E) ;;
  raise_if o.

(** [await session.execute(parsed_query, variable_values=variables)] *)
Definition execute (parsed_query : DocumentNode) (variables : option pydict)
    : M state pydict :=
  r <- on_session "execute" (CallExecute parsed_query variables)
         (λ cl w, session_execute E cl parsed_query variables w) ;;
  match r with
  | inl e => raise e
  | inr d => ret d
  end.

(** [gql(query)] *)
Definition parse (query : string) : M state DocumentNode :=
  log (CallGql query) ;;;
  match gql E query with
  | inl e => raise e
  | inr document => ret document
  end.

(** ** [class GraphQLClient]: methods *)

(** [GraphQLClient.initialize] *)
Definition GraphQLClient_initialize : M state unit :=
  c <- self "client" ;;
  match client c with
  | Some _ => ret tt
  | None =>
      t <- AIOHTTPTransport_new (endpoint_url c) (headers c) ;;
      set_transport t ;;;
      cl <- Client_new t ;;
      set_client cl ;;;
      (* Fetch schema to validate connection *)
      enter_session ;;;
      fetch_schema
  end.

(** The [try] block of [GraphQLClient.execute_query] *)
Definition delegate_query (query : string) (variables : option pydict)
    : M state pydict :=
  parsed_query <- parse query ;;
  enter_session ;;;
  execute parsed_query variables.

(** [GraphQLClient.execute_query] *)
Definition GraphQLClient_execute_query (query : string) (variables : option pydict)
    : M state pydict :=
  c <- self "client" ;;
  match client c with
  | Some _ => ret tt
  | None => GraphQLClient_initialize
  end ;;;
  try_except
    (delegate_query query variables)
    (λ e,
       match class_of e with
       | TransportQueryError => ret [("error", PStr (str_of e))]
       | _ => ret [("error", PStr ("Unexpected error: " +:+ str_of e))]
       end).

(** [GraphQLClient.get_schema] *)
Definition GraphQLClient_get_schema : M state string :=
  c <- self "client" ;;
  match client c with
  | Some _ => ret tt
  | None => GraphQLClient_initialize
  end ;;;
  cl <- self_client "schema" ;;
  ret match schema E cl with
      | Some sch => str_schema E sch
      | None => "None"
      end.

(** ** The operations registered with the tool host *)

(** [f"{auth_token}"] *)
Definition format_token (auth_token : option string) : string :=
  match auth_token with
  | Some t => t
  | None => "None"
  end.

(** [setup_connection] *)
Definition setup_connection (endpoint_url : string) (auth_token : option string)
    : M state string :=
  let headers :=
    if PyStr.truthy auth_token
    then Some {[ "Authorization" := "Bearer " +:+ format_token auth_token ]}
    else None in
  try_except
    (bind_holder (Some (GraphQLClient_init endpoint_url headers)) ;;;
     GraphQLClient_initialize ;;;
     ret "Successfully connected to GraphQL endpoint")
    (λ e, ret ("Failed to connect: " +:+ str_of e)).

(** [execute_query] *)
Definition execute_query (query : string) (variables : option pydict) : M state string :=
  s <- get ;;
  match graphql_client s with
  | None => ret "Error: Please set up connection first using setup_connection"
  | Some _ =>
      (* Check for mutations *)
      if PyStr.contains "mutation" (PyStr.lower query)
      then ret "Error: Mutations are not allowed"
      else
        result <- GraphQLClient_execute_query query variables ;;
        ret (py_str result)
  end.

(** [get_schema] *)
Definition get_schema : M state string :=
  s <- get ;;
  match graphql_client s with
  | None => ret "Error: Please set up connection first using setup_connection"
  | Some _ => GraphQLClient_get_schema
  end.

(** [graphql_client.client.schema], then an attribute of the schema *)
Definition client_schema (attr : string) : M state GraphQLSchema :=
  cl <- self_client "schema" ;;
  match schema E cl with
  | Some sch => ret sch
  | None => raise (attribute_error attr)
  end.

(** [get_type_info] *)
Definition get_type_info (type_name : string) : M state string :=
  s <- get ;;
  match graphql_client s with
  | None => ret "Error: Please set up connection first using setup_connection"
  | Some _ =>
      GraphQLClient_initialize ;;;  (* Ensure we have schema *)
      sch <- client_schema "get_type" ;;
      match get_type sch type_name with
      | None => ret ("Type '" +:+ type_name +:+ "' not found in schema")
      | Some type_def => ret (str_type E type_def)
      end
  end.

(** [list_types] *)
Definition list_types : M state string :=
  s <- get ;;
  match graphql_client s with
  | None => ret "Error: Please set up connection first using setup_connection"
  | Some _ =>
      GraphQLClient_initialize ;;;  (* Ensure we have schema *)
      sch <- client_schema "type_map" ;;
      let types := (map_to_list (type_map sch)).*1 in
      ret (PyStr.join PyStr.NL (PyStr.sorted types))
  end.

(** ** Sequences of calls from the tool host *)

Inductive call : Type :=
| SetupConnection (endpoint_url : string) (auth_token : option string)
| ExecuteQuery (query : string) (variables : option pydict)
| GetSchema
| GetTypeInfo (type_name : string)
| ListTypes.

Definition invoke (c : call) : M state string :=
  match c with
  | SetupConnection u t => setup_connection u t
  | ExecuteQuery q v => execute_query q v
  | GetSchema => get_schema
  | GetTypeInfo n => get_type_info n
  | ListTypes => list_types
  end.

(** The calls run one after the other; a call that raises leaves the
    process running, in the state it reached. *)
Fixpoint run (cs : list call) (s : state) : list (result string) * state :=
  match cs with
  | [] => ([], s)
  | c :: cs' =>
      let '(r, s') := invoke c s in
      let '(rs, s'') := run cs' s' in
      (r :: rs, s'')
  end.

(** The states the process can be in: those some sequence of calls
    reaches after the module has been loaded. *)
Definition reachable (s : state) : Prop :=
  ∃ w cs, s = (run cs (loaded w)).2.

(** ** Words used by the properties *)

(** A process state whose holder is bound. *)
Definition bound (c : GraphQLClient) (w : World) (l : list engine_call) : state :=
  {| graphql_client := Some c; world := w; calls := l |}.

(** A connection object whose client has been constructed. *)
Definition conn (u : string) (hd : option (gmap string string))
    (t : option AIOHTTPTransport) (cl : Client) : GraphQLClient :=
  {| endpoint_url := u; headers := hd; transport := t; client := Some cl |}.

(** Every bound holder has a client: the invariant of the reachable states. *)
Definition ready (s : state) : Prop :=
  ∀ c, graphql_client s = Some c → is_Some (client c).

Definition is_setup (c : call) : bool :=
  match c with
  | SetupConnection _ _ => true
  | _ => false
  end.

(** The library calls that build a client or fetch a schema. *)
Definition initializes (x : engine_call) : bool :=
  match x with
  | CallTransport _ _ | CallClient _ | CallFetchSchema => true
  | CallEnter | CallGql _ | CallExecute _ _ => false
  end.

(** What the [except] clauses of [GraphQLClient.execute_query] return. *)
Definition error_result (e : exn) : pydict :=
  [("error", PStr match class_of e with
                  | TransportQueryError => str_of e
                  | _ => "Unexpected error: " +:+ str_of e
                  end)].

(** A call of [setup_connection] that reported success. *)
Definition successful_setup (cr : call * result string) : Prop :=
  is_setup cr.1 = true ∧ cr.2 = Ok "Successfully connected to GraphQL endpoint".

(** No call of [history], run after loading the module in world [w], is a
    successful [setup_connection]. *)
Definition never_connected (w : World) (history : list call) : Prop :=
  ∀ cr, cr ∈ zip history (run history (loaded w)).1 → ¬ successful_setup cr.

(** The reading under which an operation other than [setup_connection]
    answers with the guidance string until a setup has succeeded. *)
Definition guidance_until_connected (w : World) (history : list call) (op : call) : Prop :=
  is_setup op = false → never_connected w history →
  (invoke op (run history (loaded w)).2).1
  = Ok "Error: Please set up connection first using setup_connection".

(** The reading under which a failed [setup_connection] is atomic: the
    holder is what it was before the call, and holds no client without a
    fetched schema. *)
Definition failed_setup_restores (endpoint_url : string) (auth_token : option string)
    (s : state) : Prop :=
  let '(r, s') := setup_connection endpoint_url auth_token s in
  (∃ m, r = Ok ("Failed to connect: " +:+ m)) →
  graphql_client s' = graphql_client s
  ∧ ∀ c cl, graphql_client s' = Some c → client c = Some cl → is_Some (schema E cl).

(** A computation that leaves a bound holder bound, however it ends. *)
Definition keeps_holder {A} (m : M state A) : Prop :=
  ∀ s, is_Some (graphql_client s) → is_Some (graphql_client (m s).2).

(** After [setup_connection] with the token [auth_token], the connection
    carries the bearer header for it. *)
Definition token_gives_bearer_headers (endpoint_url auth_token : string) (s : state) : Prop :=
  ∃ c, graphql_client (setup_connection endpoint_url (Some auth_token) s).2 = Some c
       ∧ headers c = Some {[ "Authorization" := "Bearer " +:+ auth_token ]}.

(** The headers [setup_connection] builds from the token. *)
Definition setup_headers (auth_token : option string) : option (gmap string string) :=
  if PyStr.truthy auth_token
  then Some {[ "Authorization" := "Bearer " +:+ format_token auth_token ]}
  else None.

(** A bound holder has a client, and its transport was built from its own
    endpoint URL and headers. *)
Definition wired (s : state) : Prop :=
  ∀ c, graphql_client s = Some c →
       is_Some (client c)
       ∧ transport c = Some {| url := endpoint_url c; transport_headers := headers c |}.

(** The operations that only read the schema. *)
Definition introspects (op : call) : bool :=
  match op with
  | GetSchema | GetTypeInfo _ | ListTypes => true
  | SetupConnection _ _ | ExecuteQuery _ _ => false
  end.

Definition builds_client (x : engine_call) : bool :=
  match x with
  | CallClient _ => true
  | _ => false
  end.

(** The library calls one operation can add to the log, in a state where
    every bound holder has a client. *)
Definition op_calls (op : call) (new : list engine_call) : Prop :=
  match op with
  | SetupConnection u tok =>
      let hd := setup_headers tok in
      let tr := {| url := u; transport_headers := hd |} in
      new = [CallTransport u hd; CallClient tr; CallEnter]
      ∨ new = [CallTransport u hd; CallClient tr; CallEnter; CallFetchSchema]
  | ExecuteQuery q v =>
      new = []
      ∨ (PyStr.contains "mutation" (PyStr.lower q) = false
         ∧ (new = [CallGql q]
            ∨ ∃ document, gql E q = inr document
                ∧ (new = [CallGql q; CallEnter]
                   ∨ new = [CallGql q; CallEnter; CallExecute document v])))
  | GetSchema | GetTypeInfo _ | ListTypes => new = []
  end.

(** A logged call that handles a query handles one that passed the
    mutation guard. *)
Definition guarded_call (x : engine_call) : Prop :=
  match x with
  | CallGql q => PyStr.contains "mutation" (PyStr.lower q) = false
  | CallExecute document _ =>
      ∃ q, gql E q = inr document ∧ PyStr.contains "mutation" (PyStr.lower q) = false
  | _ => True
  end.

(** The texts the engine gives for a schema and its types, and the names
    of its types: none of them is [text]. *)
Definition schema_texts_avoid (text : string) (sch : GraphQLSchema) : Prop :=
  str_schema E sch ≠ text
  ∧ map_Forall (λ name type_def, name ≠ text ∧ str_type E type_def ≠ text) (type_map sch).

(** The same for the schema, if any, of the client the holder is bound to. *)
Definition engine_texts_avoid (text : string) (s : state) : Prop :=
  ∀ c cl sch,
    graphql_client s = Some c → client c = Some cl → schema E cl = Some sch →
    schema_texts_avoid text sch.

End Gateway.

Arguments GraphQLSchema : clear implicits.
Arguments Engine : clear implicits.
Arguments GraphQLClient : clear implicits.
Arguments engine_call : clear implicits.

(** ** A scripted engine

    One endpoint answers, every other URL is unreachable.  The world counts
    the requests sent; a document is its source text; a type definition is
    its name. *)
Module Mock.

Record client : Type :=
  { of_transport : AIOHTTPTransport; fetched : option (GraphQLSchema string) }.

Definition live_url : string := "https://api.example/graphql".

Definition demo_schema : GraphQLSchema string :=
  {| type_map := list_to_map [("Query", "Query"); ("Mutation", "Mutation"); ("User", "User")] |}.

Definition unreachable : exn := Exn OtherException "Cannot connect to host".

Definition fetch (cl : client) (w : nat) : option exn * client * nat :=
  if bool_decide (url (of_transport cl) = live_url)
  then (None, {| of_transport := of_transport cl; fetched := Some demo_schema |}, S w)
  else (Some unreachable, cl, S w).

Definition run_query (cl : client) (document : string) (variables : option pydict) (w : nat)
    : (exn + pydict) * client * nat :=
  if bool_decide (document = "{ me { name } }")
  then (inr [("me", PDict [("name", PStr "Ada")])], cl, S w)
  else (inl (Exn TransportQueryError "Cannot query field"), cl, S w).

Definition engine : Engine nat string string client := {|
  gql q := if String.prefix "{" q then inr q
           else inl (Exn OtherException "Syntax Error: Unexpected Name.");
  new_Client t := {| of_transport := t; fetched := None |};
  schema := fetched;
  session_enter := fetch;
  session_fetch_schema := fetch;
  session_execute := run_query;
  str_schema _ := "<GraphQLSchema>";
  str_type name := name
|}.

(** The same engine, except that it prints every type as the guidance
    string of the module. *)
Definition parrot : Engine nat string string client := {|
  gql := gql engine;
  new_Client := new_Client engine;
  schema := schema engine;
  session_enter := session_enter engine;
  session_fetch_schema := session_fetch_schema engine;
  session_execute := session_execute engine;
  str_schema := str_schema engine;
  str_type _ := "Error: Please set up connection first using setup_connection"
|}.

Definition down_url : string := "http://down.example/graphql".

Definition token_headers : option (gmap string string) :=
  Some {[ "Authorization" := "Bearer s3cr3t" ]}.

Definition live_transport : AIOHTTPTransport :=
  {| url := live_url; transport_headers := token_headers |}.

(** The connection object after a successful setup with the token [s3cr3t]. *)
Definition connection : GraphQLClient client :=
  conn live_url token_headers (Some live_transport)
    {| of_transport := live_transport; fetched := Some demo_schema |}.

(** The process after a successful setup, and after a failed one. *)
Definition connected : state :=
  (setup_connection engine live_url (Some "s3cr3t") (loaded 0)).2.

Definition down : state :=
  (setup_connection engine down_url None (loaded 0)).2.

End Mock.

(** ** Words used by the properties *)

(** [c] is the letter [p] in some case: [p] itself or, for a small ASCII
    letter [p], its capital. *)
Definition same_letter (c p : ascii) : Prop :=
  c = p ∨ (97 ≤ nat_of_ascii p ≤ 122 ∧ nat_of_ascii c + 32 = nat_of_ascii p).

(** [w] spells [pattern], each letter in any case. *)
Fixpoint any_case (w pattern : string) : Prop :=
  match w, pattern with
  | EmptyString, EmptyString => True
  | String c w', String p pattern' => same_letter c p ∧ any_case w' pattern'
  | _, _ => False
  end.

(** ** Reasoning about the monad *)

(** Evaluate the monadic operations and the record projections, and
    nothing else: strings, maps and the engine stay as they are. *)
Ltac eval_py :=
  cbv beta iota zeta delta
      [invoke execute_query get_schema get_type_info list_types setup_connection
       GraphQLClient_initialize GraphQLClient_execute_query GraphQLClient_get_schema
       delegate_query client_schema enter_session fetch_schema execute parse
       on_session raise_if AIOHTTPTransport_new Client_new log set_world set_client
       set_transport self_client self bind_holder GraphQLClient_init loaded
       bind ret raise try_except get modify
       graphql_client world calls endpoint_url headers transport client
       class_of str_of fst snd].

(** ** Facts about Python strings *)

Lemma lower_app (a b : string) : PyStr.lower (a +:+ b) = PyStr.lower a +:+ PyStr.lower b.
Proof. induction a as [|c a IH]; simpl; [done | by rewrite IH]. Qed.

Lemma prefix_app (a b : string) : String.prefix a (a +:+ b) = true.
Proof.
  induction a as [|c a IH]; simpl.
  - by destruct b.
  - destruct (ascii_dec c c); [done | congruence].
Qed.

Lemma contains_here (needle rest : string) : PyStr.contains needle (needle +:+ rest) = true.
Proof.
  pose proof (prefix_app needle rest) as H.
  destruct (needle +:+ rest); cbn [PyStr.contains]; by rewrite H.
Qed.

Lemma contains_later (needle before hay : string) :
  PyStr.contains needle hay = true → PyStr.contains needle (before +:+ hay) = true.
Proof.
  intros H. induction before as [|c before IH]; simpl; [done|].
  rewrite IH. apply orb_true_r.
Qed.

Lemma contains_middle (needle before after : string) :
  PyStr.contains needle (before +:+ needle +:+ after) = true.
Proof. apply contains_later, contains_here. Qed.

Lemma same_letter_lower (c p : ascii) :
  same_letter c p → 97 ≤ nat_of_ascii p ≤ 122 → PyStr.lower_char c = p.
Proof.
  intros [->|[_ Hc]] Hp; unfold PyStr.lower_char.
  - replace ((65 <=? nat_of_ascii p) && (nat_of_ascii p <=? 90)) with false
      by (symmetry; apply andb_false_iff; right; apply Nat.leb_gt; lia).
    replace (192 <=? nat_of_ascii p) with false by (symmetry; apply Nat.leb_gt; lia).
    done.
  - replace ((65 <=? nat_of_ascii c) && (nat_of_ascii c <=? 90)) with true
      by (symmetry; apply andb_true_iff; split; apply Nat.leb_le; lia).
    simpl. rewrite Hc. apply ascii_nat_embedding.
Qed.

Lemma any_case_mutation (w : string) : any_case w "mutation" → PyStr.lower w = "mutation".
Proof.
  intros H.
  repeat (destruct w as [|? w]; simpl in H; [tauto|]; destruct H as [? H]).
  destruct w; [|done]. simpl.
  repeat match goal with |- String _ _ = String _ _ => f_equal end;
    apply same_letter_lower; (assumption || (vm_compute; lia)).
Qed.

Section Facts.

Context {World DocumentNode GraphQLNamedType Client : Type}.
Variable E : Engine World DocumentNode GraphQLNamedType Client.

Lemma bound_inv (s : @state World DocumentNode Client) c :
  graphql_client s = Some c → s = bound c (world s) (calls s).
Proof. destruct s; simpl; by intros ->. Qed.

Lemma conn_inv (c : GraphQLClient Client) cl :
  client c = Some cl → c = conn (endpoint_url c) (headers c) (transport c) cl.
Proof. destruct c; simpl; by intros ->. Qed.

Lemma ready_inv (s : @state World DocumentNode Client) c :
  ready s → graphql_client s = Some c →
  ∃ cl, s = bound (conn (endpoint_url c) (headers c) (transport c) cl) (world s) (calls s)
        ∧ client c = Some cl.
Proof.
  intros Hr Hc. destruct (Hr c Hc) as [cl Hcl]. exists cl. split; [|done].
  by rewrite (bound_inv s c Hc) at 1; rewrite (conn_inv c cl Hcl) at 1.
Qed.

(** *** The operations as equations *)

Lemma initialize_skips u hd t cl w l :
  GraphQLClient_initialize E (bound (conn u hd t cl) w l)
  = (Ok tt, bound (conn u hd t cl) w l).
Proof. reflexivity. Qed.

Lemma initialize_fresh u hd t w l :
  GraphQLClient_initialize E
    (bound {| endpoint_url := u; headers := hd; transport := t; client := None |} w l)
  = let tr := {| url := u; transport_headers := hd |} in
    let '(o1, cl1, w1) := session_enter E (new_Client E tr) w in
    match o1 with
    | Some e =>
        (Raised e,
         bound (conn u hd (Some tr) cl1) w1 (l ++ [CallTransport u hd; CallClient tr; CallEnter]))
    | None =>
        let '(o2, cl2, w2) := session_fetch_schema E cl1 w1 in
        (match o2 with Some e => Raised e | None => Ok tt end,
         bound (conn u hd (Some tr) cl2) w2
           (l ++ [CallTransport u hd; CallClient tr; CallEnter; CallFetchSchema]))
    end.
Proof.
  unfold bound, conn. eval_py.
  destruct (session_enter E _ w) as [[[e|] cl1] w1]; eval_py.
  - by rewrite <- !app_assoc.
  - destruct (session_fetch_schema E cl1 w1) as [[[e|] cl2] w2]; eval_py;
      by rewrite <- !app_assoc.
Qed.

Lemma delegate_query_eq q v u hd t cl w l :
  delegate_query E q v (bound (conn u hd t cl) w l)
  = match gql E q with
    | inl e => (Raised e, bound (conn u hd t cl) w (l ++ [CallGql q]))
    | inr document =>
        let '(o1, cl1, w1) := session_enter E cl w in
        match o1 with
        | Some e => (Raised e, bound (conn u hd t cl1) w1 (l ++ [CallGql q; CallEnter]))
        | None =>
            let '(r, cl2, w2) := session_execute E cl1 document v w1 in
            (match r with inl e => Raised e | inr d => Ok d end,
             bound (conn u hd t cl2) w2 (l ++ [CallGql q; CallEnter; CallExecute document v]))
        end
    end.
Proof.
  unfold bound, conn. eval_py.
  destruct (gql E q) as [e|document]; eval_py; [done|].
  destruct (session_enter E cl w) as [[[e|] cl1] w1]; eval_py.
  - by rewrite <- !app_assoc.
  - destruct (session_execute E cl1 document v w1) as [[[e|d] cl2] w2]; eval_py;
      by rewrite <- !app_assoc.
Qed.

Lemma setup_connection_eq u tok (s : state) :
  setup_connection E u tok s
  = let hd := if PyStr.truthy tok
              then Some {[ "Authorization" := "Bearer " +:+ format_token tok ]}
              else None in
    match GraphQLClient_initialize E
            (bound {| endpoint_url := u; headers := hd; transport := None; client := None |}
               (world s) (calls s)) with
    | (Ok _, s') => (Ok "Successfully connected to GraphQL endpoint", s')
    | (Raised e, s') => (Ok ("Failed to connect: " +:+ str_of e), s')
    end.
Proof.
  unfold setup_connection, try_except, bind at 1 2, bind_holder, modify,
    GraphQLClient_init, bound.
  cbv zeta.
  destruct (GraphQLClient_initialize E _) as [[[]|e] s']; reflexivity.
Qed.

Lemma execute_query_eq q v u hd t cl w l :
  PyStr.contains "mutation" (PyStr.lower q) = false →
  execute_query E q v (bound (conn u hd t cl) w l)
  = match delegate_query E q v (bound (conn u hd t cl) w l) with
    | (Ok d, s') => (Ok (py_str d), s')
    | (Raised e, s') => (Ok (py_str (error_result e)), s')
    end.
Proof.
  intros Hq.
  cbv beta iota zeta delta
    [execute_query GraphQLClient_execute_query bind get self try_except ret raise
     bound conn graphql_client client error_result].
  rewrite Hq.
  destruct (delegate_query E q v _) as [[d|e] s']; [done|].
  by destruct (class_of e).
Qed.

Lemma execute_query_guarded q v (s : state) c :
  graphql_client s = Some c →
  PyStr.contains "mutation" (PyStr.lower q) = true →
  execute_query E q v s = (Ok "Error: Mutations are not allowed", s).
Proof.
  intros Hc Hq. cbv beta iota zeta delta [execute_query bind get ret].
  by rewrite Hc, Hq.
Qed.

Lemma get_schema_eq u hd t cl w l :
  get_schema E (bound (conn u hd t cl) w l)
  = (Ok match schema E cl with
        | Some sch => str_schema E sch
        | None => "None"
        end, bound (conn u hd t cl) w l).
Proof. reflexivity. Qed.

Lemma get_type_info_eq n u hd t cl w l :
  get_type_info E n (bound (conn u hd t cl) w l)
  = (match schema E cl with
     | None => Raised (attribute_error "get_type")
     | Some sch =>
         Ok match get_type sch n with
            | None => "Type '" +:+ n +:+ "' not found in schema"
            | Some type_def => str_type E type_def
            end
     end, bound (conn u hd t cl) w l).
Proof.
  unfold bound, conn. eval_py. destruct (schema E cl) as [sch|]; [|done].
  by destruct (get_type sch n).
Qed.

Lemma list_types_eq u hd t cl w l :
  list_types E (bound (conn u hd t cl) w l)
  = (match schema E cl with
     | None => Raised (attribute_error "type_map")
     | Some sch => Ok (PyStr.join PyStr.NL (PyStr.sorted (map_to_list (type_map sch)).*1))
     end, bound (conn u hd t cl) w l).
Proof. unfold bound, conn. eval_py. by destruct (schema E cl) as [sch|]. Qed.

(** Before any binding of the holder, the four operations answer alike. *)
Lemma invoke_unbound (op : call) (s : state) :
  graphql_client s = None → is_setup op = false →
  invoke E op s = (Ok "Error: Please set up connection first using setup_connection", s).
Proof.
  intros Hs Hop. destruct op; try discriminate Hop;
    cbv beta iota zeta delta [invoke execute_query get_schema get_type_info list_types
                               bind get ret];
    by rewrite Hs.
Qed.

(** *** What the operations do to the holder *)

Lemma setup_connection_bound u tok (s : state) :
  let hd := if PyStr.truthy tok
            then Some {[ "Authorization" := "Bearer " +:+ format_token tok ]}
            else None in
  let tr := {| url := u; transport_headers := hd |} in
  ∃ r cl w' new,
    setup_connection E u tok s
    = (Ok r, bound (conn u hd (Some tr) cl) w'
               (calls s ++ CallTransport u hd :: CallClient tr :: CallEnter :: new)).
Proof.
  intros hd tr. rewrite setup_connection_eq. cbv zeta. rewrite initialize_fresh.
  cbv zeta. fold hd tr.
  destruct (session_enter E _ _) as [[[e|] cl1] w1]; [by eauto|].
  destruct (session_fetch_schema E _ _) as [[[e|] cl2] w2]; by eauto.
Qed.

Lemma invoke_connected op u hd t cl w l :
  is_setup op = false →
  ∃ r cl' w' new,
    invoke E op (bound (conn u hd t cl) w l) = (r, bound (conn u hd t cl') w' (l ++ new))
    ∧ Forall (λ x, initializes x = false) new.
Proof.
  intros Hop. destruct op as [| q v | | n |]; [done| | | |]; cbn [invoke].
  - destruct (PyStr.contains "mutation" (PyStr.lower q)) eqn:Hq.
    + rewrite (execute_query_guarded q v _ (conn u hd t cl)) by done.
      exists (Ok "Error: Mutations are not allowed"), cl, w, []. by rewrite app_nil_r.
    + rewrite execute_query_eq, delegate_query_eq by done.
      destruct (gql E q) as [e|document].
      { eexists _, _, _, _. split; [done|]. by repeat constructor. }
      destruct (session_enter E cl w) as [[[e|] cl1] w1].
      { eexists _, _, _, _. split; [done|]. by repeat constructor. }
      destruct (session_execute E cl1 document v w1) as [[[e|d] cl2] w2];
        (eexists _, _, _, _; split; [done|]; by repeat constructor).
  - rewrite get_schema_eq. eexists _, cl, w, []. by rewrite app_nil_r.
  - rewrite get_type_info_eq. eexists _, cl, w, []. by rewrite app_nil_r.
  - rewrite list_types_eq. eexists _, cl, w, []. by rewrite app_nil_r.
Qed.

Lemma ready_bound_conn u hd t (cl : Client) (w : World) (l : list (engine_call DocumentNode)) :
  ready (bound (conn u hd t cl) w l).
Proof. intros c [= <-]. by eexists. Qed.

Lemma ready_loaded (w : World) : ready (@loaded World DocumentNode Client w).
Proof. by intros c. Qed.

Lemma invoke_ready op (s : state) : ready s → ready (invoke E op s).2.
Proof.
  intros Hr. destruct (is_setup op) eqn:Hop.
  - destruct op as [u tok| | | |]; try discriminate Hop. cbn [invoke].
    destruct (setup_connection_bound u tok s) as (r & cl & w' & new & ->).
    apply ready_bound_conn.
  - destruct (graphql_client s) as [c|] eqn:Hc.
    + destruct (ready_inv s c Hr Hc) as (cl & -> & _).
      destruct (invoke_connected op (endpoint_url c) (headers c) (transport c) cl
                  (world s) (calls s) Hop) as (r & cl' & w' & new & -> & _).
      apply ready_bound_conn.
    + by rewrite invoke_unbound.
Qed.

Lemma run_cons c cs (s : state) :
  run E (c :: cs) s
  = ((invoke E c s).1 :: (run E cs (invoke E c s).2).1, (run E cs (invoke E c s).2).2).
Proof.
  cbn [run]. destruct (invoke E c s) as [r s']. cbn [fst snd].
  by destruct (run E cs s') as [rs s''].
Qed.

Lemma run_ready cs (s : state) : ready s → ready (run E cs s).2.
Proof.
  revert s. induction cs as [|c cs IH]; intros s Hs; [done|].
  rewrite run_cons. cbn [snd]. by apply IH, invoke_ready.
Qed.

Lemma reachable_ready (s : state) : reachable E s → ready s.
Proof. intros (w & cs & ->). apply run_ready, ready_loaded. Qed.

(** The holder is only ever assigned a connection object: once bound, it
    stays bound through every step of every operation. *)

Lemma keeps_ret {A} (a : A) :
  keeps_holder (ret a : M (@state World DocumentNode Client) A).
Proof. by intros s. Qed.

Lemma keeps_raise {A} e :
  keeps_holder (raise e : M (@state World DocumentNode Client) A).
Proof. by intros s. Qed.

Lemma keeps_get :
  keeps_holder (get : M (@state World DocumentNode Client) _).
Proof. by intros s. Qed.

Lemma keeps_bind {A B} (m : M (@state World DocumentNode Client) A) (k : A → M state B) :
  keeps_holder m → (∀ a, keeps_holder (k a)) → keeps_holder (bind m k).
Proof.
  intros Hm Hk s Hs. unfold bind. specialize (Hm s Hs).
  destruct (m s) as [[a|e] s']; simpl in *; [by apply Hk | done].
Qed.

Lemma keeps_try {A} (m : M (@state World DocumentNode Client) A) h :
  keeps_holder m → (∀ e, keeps_holder (h e)) → keeps_holder (try_except m h).
Proof.
  intros Hm Hh s Hs. unfold try_except. specialize (Hm s Hs).
  destruct (m s) as [[a|e] s']; simpl in *; [done | by apply Hh].
Qed.

Lemma keeps_modify (f : @state World DocumentNode Client → state) :
  (∀ s, is_Some (graphql_client s) → is_Some (graphql_client (f s))) →
  keeps_holder (modify f).
Proof. intros Hf s Hs. by apply Hf. Qed.

Ltac keeps :=
  repeat first
    [ apply keeps_ret | apply keeps_raise | apply keeps_get
    | apply keeps_bind; [|intros ?]
    | apply keeps_try; [|intros ?]
    | apply keeps_modify; intros ? ?; simpl; by eauto
    | match goal with
      | |- keeps_holder (match ?x with _ => _ end) => destruct x
      end ].

Lemma invoke_keeps_holder (op : call) : keeps_holder (invoke E op).
Proof.
  destruct op;
    unfold invoke, setup_connection, execute_query, get_schema, get_type_info, list_types,
      GraphQLClient_execute_query, GraphQLClient_get_schema, GraphQLClient_initialize,
      delegate_query, client_schema, enter_session, fetch_schema, execute, parse,
      on_session, raise_if, AIOHTTPTransport_new, Client_new, log, set_world,
      set_client, set_transport, self_client, self, bind_holder;
    keeps.
Qed.

Lemma run_keeps_holder cs (s : state) :
  is_Some (graphql_client s) → is_Some (graphql_client (run E cs s).2).
Proof.
  revert s. induction cs as [|c cs IH]; intros s Hs; [done|].
  rewrite run_cons. cbn [snd]. by apply IH, invoke_keeps_holder.
Qed.

Lemma run_after_setup cs (s : state) :
  Exists (λ c, is_setup c = true) cs → is_Some (graphql_client (run E cs s).2).
Proof.
  revert s. induction cs as [|c cs IH]; intros s Hex; [by inversion Hex|].
  rewrite run_cons. cbn [snd]. destruct (is_setup c) eqn:Hc.
  - apply run_keeps_holder. destruct c as [u tok| | | |]; try discriminate Hc.
    cbn [invoke].
    destruct (setup_connection_bound u tok s) as (r & cl & w' & new & ->).
    by eexists.
  - apply IH. inversion Hex as [?? Hc'|]; [congruence|done].
Qed.

Lemma run_unbound cs (s : state) :
  graphql_client s = None → Forall (λ c, is_setup c = false) cs →
  run E cs s
  = (replicate (length cs) (Ok "Error: Please set up connection first using setup_connection"), s).
Proof.
  intros Hs Hcs. induction Hcs as [|c cs Hc _ IH]; [done|].
  rewrite run_cons, (invoke_unbound c s Hs Hc). cbn [fst snd]. by rewrite IH.
Qed.

Lemma run_connected ops u hd t cl w l :
  Forall (λ op, is_setup op = false) ops →
  ∃ cl' w' new,
    (run E ops (bound (conn u hd t cl) w l)).2 = bound (conn u hd t cl') w' (l ++ new)
    ∧ Forall (λ x, initializes x = false) new.
Proof.
  intros Hops. revert cl w l. induction Hops as [|op ops Hop _ IH]; intros cl w l.
  - exists cl, w, []. by rewrite app_nil_r.
  - rewrite run_cons. cbn [snd].
    destruct (invoke_connected op u hd t cl w l Hop) as (r & cl1 & w1 & new1 & -> & H1).
    cbn [snd]. destruct (IH cl1 w1 (l ++ new1)) as (cl2 & w2 & new2 & -> & H2).
    exists cl2, w2, (new1 ++ new2). rewrite app_assoc. split; [done|].
    by apply Forall_app.
Qed.

Lemma run_stays_connected cs u hd t cl w l :
  ∃ u' hd' t' cl' w' l',
    (run E cs (bound (conn u hd t cl) w l)).2 = bound (conn u' hd' t' cl') w' l'.
Proof.
  revert u hd t cl w l. induction cs as [|c cs IH]; intros u hd t cl w l.
  - by eexists _, _, _, _, _, _.
  - rewrite run_cons. cbn [snd]. destruct (is_setup c) eqn:Hc.
    + destruct c as [u1 tok| | | |]; try discriminate Hc. cbn [invoke].
      destruct (setup_connection_bound u1 tok (bound (conn u hd t cl) w l))
        as (r & cl1 & w1 & new & ->).
      apply IH.
    + destruct (invoke_connected c u hd t cl w l Hc) as (r & cl1 & w1 & new1 & -> & _).
      apply IH.
Qed.

Lemma run_app cs1 cs2 (s : state) :
  (run E (cs1 ++ cs2) s).2 = (run E cs2 (run E cs1 s).2).2.
Proof.
  revert s. induction cs1 as [|c cs1 IH]; intros s; [done|].
  cbn [app]. rewrite !run_cons. cbn [snd]. apply IH.
Qed.

Lemma initialize_connects (s : state) :
  is_Some (graphql_client s) →
  ∃ u hd t cl w l, (GraphQLClient_initialize E s).2 = bound (conn u hd t cl) w l.
Proof.
  intros [c Hc]. rewrite (bound_inv s c Hc). destruct c as [u hd t [cl|]].
  - by eexists _, _, _, _, _, _.
  - rewrite initialize_fresh. cbv zeta.
    destruct (session_enter E _ _) as [[[e|] cl1] w1]; [by eexists _, _, _, _, _, _|].
    destruct (session_fetch_schema E _ _) as [[o cl2] w2]; by eexists _, _, _, _, _, _.
Qed.

Lemma py_str_not_guidance (d : pydict) :
  py_str d ≠ "Error: Please set up connection first using setup_connection".
Proof. unfold py_str. cbn [py_repr]. discriminate. Qed.

(** *** The texts the operations return *)

Lemma py_str_error (m : string) :
  py_str [("error", PStr m)] = "{'error': " +:+ PyStr.repr m +:+ "}".
Proof. reflexivity. Qed.

Lemma failure_not_guidance (m : string) :
  "Failed to connect: " +:+ m
  ≠ "Error: Please set up connection first using setup_connection".
Proof. cbn [String.append]. discriminate. Qed.

Lemma not_found_not_guidance (n : string) :
  "Type '" +:+ n +:+ "' not found in schema"
  ≠ "Error: Please set up connection first using setup_connection".
Proof. cbn [String.append]. discriminate. Qed.

Lemma chars_app (a b : string) :
  list_ascii_of_string (a +:+ b) = list_ascii_of_string a ++ list_ascii_of_string b.
Proof. induction a as [|c a IH]; simpl; [done | by rewrite IH]. Qed.

Lemma join_has_line_feed (a b : string) (rest : list string) :
  PyStr.LF ∈ list_ascii_of_string (PyStr.join PyStr.NL (a :: b :: rest)).
Proof.
  unfold PyStr.join. cbn [String.concat]. rewrite !chars_app.
  apply elem_of_app. right. apply elem_of_app. left. cbn. apply list_elem_of_here.
Qed.

(** A text without a line feed is the join of a list of names only when
    it is the one name of the list, or empty. *)
Lemma join_one_line (names : list string) (text : string) :
  PyStr.LF ∉ list_ascii_of_string text →
  PyStr.join PyStr.NL names = text →
  names = [text] ∨ (names = [] ∧ text = EmptyString).
Proof.
  intros Hlf Hjoin. destruct names as [|a [|b rest]].
  - right. by subst text.
  - left. by subst text.
  - destruct Hlf. rewrite <- Hjoin. apply join_has_line_feed.
Qed.

Lemma guidance_one_line :
  PyStr.LF ∉ list_ascii_of_string
    "Error: Please set up connection first using setup_connection".
Proof. by apply (bool_decide_unpack _). Qed.

(** With a connected holder, no operation returns [text] when the texts of
    the engine avoid it and the module's own answers differ from it. *)
Lemma invoke_connected_not_guidance op u hd t cl (w : World) l :
  engine_texts_avoid E "Error: Please set up connection first using setup_connection"
    (bound (conn u hd t cl) w l) →
  (invoke E op (bound (conn u hd t cl) w l)).1
  ≠ Ok "Error: Please set up connection first using setup_connection".
Proof.
  intros Hlaw. specialize (Hlaw (conn u hd t cl) cl).
  destruct op as [u' tok|q v| |n|]; cbn [invoke].
  - rewrite setup_connection_eq. cbv zeta.
    destruct (GraphQLClient_initialize E _) as [[[]|e] s1]; cbn [fst]; [done|].
    intros H. destruct (failure_not_guidance (str_of e)). congruence.
  - destruct (PyStr.contains "mutation" (PyStr.lower q)) eqn:Hq.
    + by rewrite (execute_query_guarded q v _ (conn u hd t cl)).
    + rewrite execute_query_eq by done.
      destruct (delegate_query E q v _) as [[d|e] s1]; cbn [fst];
        intros H; [destruct (py_str_not_guidance d)
                  |destruct (py_str_not_guidance (error_result e))]; congruence.
  - rewrite get_schema_eq. cbn [fst]. destruct (schema E cl) as [sch|]; [|done].
    destruct (Hlaw sch) as [Hs _]; [done..|]. congruence.
  - rewrite get_type_info_eq. cbn [fst]. destruct (schema E cl) as [sch|]; [|done].
    destruct (Hlaw sch) as [_ Hm]; [done..|].
    unfold get_type. destruct (type_map sch !! n) as [type_def|] eqn:Hn.
    + destruct (map_Forall_lookup_1 _ _ _ _ Hm Hn) as [_ Ht]. congruence.
    + intros H. destruct (not_found_not_guidance n). congruence.
  - rewrite list_types_eq. cbn [fst]. destruct (schema E cl) as [sch|]; [|done].
    destruct (Hlaw sch) as [_ Hm]; [done..|].
    intros H. assert (Hjoin : PyStr.join PyStr.NL (PyStr.sorted (map_to_list (type_map sch)).*1)
                     = "Error: Please set up connection first using setup_connection")
      by congruence.
    destruct (join_one_line _ _ guidance_one_line Hjoin) as [Hone|[_ ?]]; [|done].
    assert (Hin : "Error: Please set up connection first using setup_connection"
                  ∈ (map_to_list (type_map sch)).*1).
    { rewrite <- (merge_sort_Permutation String.le). fold (PyStr.sorted (map_to_list (type_map sch)).*1).
      rewrite Hone. apply list_elem_of_here. }
    apply list_elem_of_fmap in Hin as ([k x] & Hk & Hkx). cbn in Hk. subst k.
    apply elem_of_map_to_list in Hkx.
    by destruct (map_Forall_lookup_1 _ _ _ _ Hm Hkx) as [? _].
Qed.

End Facts.

(** ** The claims *)

Section Claims.

Context {World DocumentNode GraphQLNamedType Client : Type}.
Variable E : Engine World DocumentNode GraphQLNamedType Client.

(** C1. Whenever the holder is bound and the query text contains the word
    mutation, its letters in any case and at any position, [execute_query]
    returns the fixed rejection string and the process state is untouched:
    no library call is logged and the world has not moved, so nothing was
    delegated to the engine. *)
Theorem mutation_rejected_without_delegation (s : state) before word after variables :
  is_Some (graphql_client s) → any_case word "mutation" →
  execute_query E (before +:+ word +:+ after) variables s
  = (Ok "Error: Mutations are not allowed", s).
Proof.
  intros [c Hc] Hw. apply (execute_query_guarded E _ _ s c Hc).
  rewrite !lower_app, (any_case_mutation _ Hw). apply contains_middle.
Qed.

(** C2, as amended. As long as no [setup_connection] call has been made
    since the module was loaded, the holder is still empty, and each of
    [execute_query], [get_schema], [get_type_info] and [list_types]
    returns the guidance string, without raising and without changing the
    process state. *)
Theorem guidance_before_first_setup (w : World) history op :
  Forall (λ c, is_setup c = false) history → is_setup op = false →
  (run E history (loaded w)).2 = loaded w
  ∧ invoke E op (run E history (loaded w)).2
    = (Ok "Error: Please set up connection first using setup_connection", loaded w).
Proof.
  intros Hh Hop. rewrite (run_unbound E history (loaded w)) by done.
  split; [done|]. by apply invoke_unbound.
Qed.

(** C3, as amended. When [setup_connection] fails, that is when it answers
    with the failure string because initialization raised, the holder is
    not restored: it is bound to the connection object the call created,
    which carries the endpoint URL and the headers of the call. *)
Theorem failed_setup_replaces_holder u tok (s : state) m :
  (setup_connection E u tok s).1 = Ok ("Failed to connect: " +:+ m) →
  let hd := if PyStr.truthy tok
            then Some {[ "Authorization" := "Bearer " +:+ format_token tok ]}
            else None in
  (∃ e, (GraphQLClient_initialize E (bound (GraphQLClient_init u hd) (world s) (calls s))).1
        = Raised e ∧ str_of e = m)
  ∧ ∃ c, graphql_client (setup_connection E u tok s).2 = Some c
         ∧ endpoint_url c = u ∧ headers c = hd.
Proof.
  intros Hfail hd. split.
  - rewrite setup_connection_eq in Hfail. cbv zeta in Hfail. fold hd in Hfail.
    unfold GraphQLClient_init.
    destruct (GraphQLClient_initialize E _) as [[[]|e] s']; cbn [fst] in *.
    + discriminate Hfail.
    + exists e. split; [done|]. injection Hfail as Hm. by apply String.app_inj in Hm.
  - destruct (setup_connection_bound E u tok s) as (r & cl & w' & new & ->).
    by eexists.
Qed.

(** C4. In every reachable state with a bound holder, a query that passes
    the mutation guard never makes [execute_query] raise: it returns a
    text.  When the delegation to the engine raises [TransportQueryError]
    the text is that of the dict with the key error and the message; when
    it raises any other exception, that of the dict with the key error and
    the message after the words Unexpected error; when it returns a
    mapping, the text of that mapping. *)
Theorem execute_query_never_raises (s : state) q v :
  reachable E s → is_Some (graphql_client s) →
  PyStr.contains "mutation" (PyStr.lower q) = false →
  (∃ text, (execute_query E q v s).1 = Ok text)
  ∧ (∀ e s', delegate_query E q v s = (Raised e, s') →
       class_of e = TransportQueryError →
       execute_query E q v s = (Ok (py_str [("error", PStr (str_of e))]), s'))
  ∧ (∀ e s', delegate_query E q v s = (Raised e, s') →
       class_of e ≠ TransportQueryError →
       execute_query E q v s
       = (Ok (py_str [("error", PStr ("Unexpected error: " +:+ str_of e))]), s'))
  ∧ (∀ d s', delegate_query E q v s = (Ok d, s') →
       execute_query E q v s = (Ok (py_str d), s')).
Proof.
  intros Hr [c Hc] Hq.
  destruct (ready_inv s c (reachable_ready E s Hr) Hc) as (cl & -> & _).
  rewrite execute_query_eq by done.
  destruct (delegate_query E q v _) as [[d|e] s1]; (split; [by eexists|]).
  - by repeat split; intros ?? [= <- <-].
  - repeat split; intros ?? [= <- <-]; try done; unfold error_result.
    + by intros ->.
    + intros He. by destruct (class_of e).
Qed.

(** C5. In every reachable state with a bound holder, for a query that
    passes the mutation guard and that the engine parses, enters a session
    for and answers with a mapping [d]: [execute_query] hands the
    unmodified query text to [gql] once, hands the parsed document and the
    unmodified variables to [session.execute] once, makes no other library
    call, and returns the text Python's [str] gives for [d]: the items
    [repr(key): repr(value)] in the order of the mapping, separated by a
    comma and a space, between braces. *)
Theorem read_query_delegated_once (s : state) c q v document cl1 w1 d cl2 w2 :
  reachable E s → graphql_client s = Some c →
  PyStr.contains "mutation" (PyStr.lower q) = false →
  gql E q = inr document →
  (∀ cl, client c = Some cl → session_enter E cl (world s) = (None, cl1, w1)) →
  session_execute E cl1 document v w1 = (inr d, cl2, w2) →
  execute_query E q v s
  = (Ok ("{" +:+ PyStr.join ", "
                   (map (λ kv, PyStr.repr kv.1 +:+ ": " +:+ py_repr kv.2) d)
             +:+ "}"),
     bound (conn (endpoint_url c) (headers c) (transport c) cl2) w2
       (calls s ++ [CallGql q; CallEnter; CallExecute document v])).
Proof.
  intros Hr Hc Hq Hgql Henter Hexec.
  destruct (ready_inv s c (reachable_ready E s Hr) Hc) as (cl & Hs & Hcl).
  rewrite Hs at 1. rewrite execute_query_eq, delegate_query_eq by done.
  by rewrite Hgql, (Henter cl Hcl), Hexec.
Qed.

(** C6. With a bound holder: when a client already exists, [initialize]
    returns at once and changes nothing, so no transport or client is
    built and no schema is fetched; a second [initialize] after a first
    one, whatever the first did, is such a no-op; and from then on no
    sequence of operations other than [setup_connection] makes a call
    that builds a transport or a client or fetches the schema. *)
Theorem initialize_idempotent (s : state) ops :
  is_Some (graphql_client s) → Forall (λ op, is_setup op = false) ops →
  (∀ c cl, graphql_client s = Some c → client c = Some cl →
     GraphQLClient_initialize E s = (Ok tt, s))
  ∧ GraphQLClient_initialize E (GraphQLClient_initialize E s).2
    = (Ok tt, (GraphQLClient_initialize E s).2)
  ∧ ∃ new, calls (run E ops (GraphQLClient_initialize E s).2).2
           = calls (GraphQLClient_initialize E s).2 ++ new
           ∧ Forall (λ x, initializes x = false) new.
Proof.
  intros Hs Hops. split; [|split].
  - intros c cl Hc Hcl. rewrite (bound_inv s c Hc), (conn_inv c cl Hcl).
    apply initialize_skips.
  - destruct (initialize_connects E s Hs) as (u & hd & t & cl & w & l & ->).
    apply initialize_skips.
  - destruct (initialize_connects E s Hs) as (u & hd & t & cl & w & l & ->).
    destruct (run_connected E ops u hd t cl w l Hops) as (cl' & w' & new & -> & Hnew).
    by exists new.
Qed.

(** C7. With a bound holder whose client has a fetched schema,
    [list_types] returns, without changing the state, the names joined by
    line feeds of a list that is sorted, has no duplicates and holds
    exactly the keys of the schema's type map; when those keys are Query,
    Mutation and User, the list is Mutation, Query, User. *)
Theorem list_types_sorted_names (s : state) c cl sch :
  graphql_client s = Some c → client c = Some cl → schema E cl = Some sch →
  ∃ names,
    list_types E s = (Ok (PyStr.join PyStr.NL names), s)
    ∧ Sorted String.le names
    ∧ NoDup names
    ∧ (∀ n, n ∈ names ↔ is_Some (type_map sch !! n))
    ∧ (dom (type_map sch) = {[ "Query"; "Mutation"; "User" ]} →
       names = ["Mutation"; "Query"; "User"]).
Proof.
  intros Hc Hcl Hsch. exists (PyStr.sorted (map_to_list (type_map sch)).*1).
  assert (Hperm : PyStr.sorted (map_to_list (type_map sch)).*1
                  ≡ₚ (map_to_list (type_map sch)).*1) by apply merge_sort_Permutation.
  assert (Hnodup : NoDup (PyStr.sorted (map_to_list (type_map sch)).*1)).
  { rewrite Hperm. apply NoDup_fst_map_to_list. }
  assert (Hin : ∀ n, n ∈ PyStr.sorted (map_to_list (type_map sch)).*1
                     ↔ is_Some (type_map sch !! n)).
  { intros n. rewrite Hperm, list_elem_of_fmap. split.
    - intros ([k x] & -> & Hkx). apply elem_of_map_to_list in Hkx. by eexists.
    - intros [x Hx]. exists (n, x). split; [done|]. by apply elem_of_map_to_list. }
  assert (Hsorted : Sorted String.le (PyStr.sorted (map_to_list (type_map sch)).*1))
    by apply (Sorted_merge_sort _).
  split; [|split; [done|split; [done|split; [done|]]]].
  - rewrite (bound_inv s c Hc) at 1. rewrite (conn_inv c cl Hcl) at 1.
    rewrite list_types_eq, Hsch. by rewrite <- (conn_inv c cl Hcl), <- (bound_inv s c Hc).
  - intros Hdom. apply (Sorted_unique String.le); [done| |].
    + by repeat constructor.
    + apply NoDup_Permutation; [done| |].
      * by apply (bool_decide_unpack _).
      * intros n. rewrite Hin, <- elem_of_dom, Hdom.
        rewrite !elem_of_union, !elem_of_singleton, !elem_of_cons, elem_of_nil. tauto.
Qed.

(** C8, as amended. Called with a non-empty token, [setup_connection]
    builds the headers that map Authorization to Bearer followed by the
    token: the connection object holds them and the transport is
    constructed with them.  Called without a token it builds none: the
    headers are [None]. *)
Theorem nonempty_token_bearer_headers u tok (s : state) :
  tok ≠ EmptyString →
  (∃ c rest,
     graphql_client (setup_connection E u (Some tok) s).2 = Some c
     ∧ headers c = Some {[ "Authorization" := "Bearer " +:+ tok ]}
     ∧ calls (setup_connection E u (Some tok) s).2
       = calls s ++ CallTransport u (Some {[ "Authorization" := "Bearer " +:+ tok ]}) :: rest)
  ∧ (∃ c rest,
       graphql_client (setup_connection E u None s).2 = Some c
       ∧ headers c = None
       ∧ calls (setup_connection E u None s).2 = calls s ++ CallTransport u None :: rest).
Proof.
  intros Htok. split.
  - destruct (setup_connection_bound E u (Some tok) s) as (r & cl & w' & new & ->).
    destruct tok; [done|]. by eexists _, _.
  - destruct (setup_connection_bound E u None s) as (r & cl & w' & new & ->).
    by eexists _, _.
Qed.

(** C9. In every run of calls that contains a [setup_connection] call,
    whatever that call returned and whatever calls follow it, the holder
    is bound at the end: the test [not graphql_client] that guards the
    guidance string does not hold any more.  From then on neither
    [execute_query] nor [setup_connection] answers with the guidance
    string, whatever the engine does; and no operation at all does, for an
    engine whose texts for the schema and its types, and whose type names,
    differ from the guidance string: these three are the only texts of the
    engine that [get_schema], [get_type_info] and [list_types] hand back
    as they are. *)
Theorem holder_never_emptied (s : state) before u tok after :
  is_Some (graphql_client (run E (before ++ SetupConnection u tok :: after) s).2)
  ∧ (∀ q v, (execute_query E q v (run E (before ++ SetupConnection u tok :: after) s).2).1
            ≠ Ok "Error: Please set up connection first using setup_connection")
  ∧ (∀ u' tok',
       (setup_connection E u' tok' (run E (before ++ SetupConnection u tok :: after) s).2).1
       ≠ Ok "Error: Please set up connection first using setup_connection")
  ∧ (engine_texts_avoid E "Error: Please set up connection first using setup_connection"
       (run E (before ++ SetupConnection u tok :: after) s).2 →
     ∀ op, (invoke E op (run E (before ++ SetupConnection u tok :: after) s).2).1
           ≠ Ok "Error: Please set up connection first using setup_connection").
Proof.
  rewrite run_app, run_cons. cbn [snd invoke].
  destruct (setup_connection_bound E u tok (run E before s).2) as (r & cl & w' & new & ->).
  cbn [snd].
  edestruct (run_stays_connected E after) as (u1 & hd1 & t1 & cl1 & w1 & l1 & ->).
  split; [by eexists|]. split; [|split].
  - intros q v.
    destruct (PyStr.contains "mutation" (PyStr.lower q)) eqn:Hq.
    + by rewrite (execute_query_guarded E q v _ (conn u1 hd1 t1 cl1)).
    + rewrite execute_query_eq by done.
      destruct (delegate_query E q v _) as [[d|e] s1]; cbn [fst];
        intros [= H]; by apply py_str_not_guidance in H.
  - intros u' tok'. rewrite setup_connection_eq. cbv zeta.
    destruct (GraphQLClient_initialize E _) as [[[]|e] s1]; cbn [fst]; [done|].
    intros H. destruct (failure_not_guidance (str_of e)). congruence.
  - intros Hlaw op. by apply invoke_connected_not_guidance.
Qed.

(** C10. [setup_connection] with the empty string as token does exactly
    what it does without a token, result and state alike, and the
    connection object it leaves has no headers. *)
Theorem empty_token_as_absent u (s : state) :
  setup_connection E u (Some EmptyString) s = setup_connection E u None s
  ∧ ∃ c, graphql_client (setup_connection E u (Some EmptyString) s).2 = Some c
         ∧ headers c = None.
Proof.
  split; [reflexivity|].
  destruct (setup_connection_bound E u (Some EmptyString) s) as (r & cl & w' & new & ->).
  by eexists.
Qed.

End Claims.

(** ** The claims on the scripted engine *)

Lemma connected_eq :
  Mock.connected
  = bound Mock.connection 2
      [CallTransport Mock.live_url Mock.token_headers; CallClient Mock.live_transport;
       CallEnter; CallFetchSchema].
Proof. vm_compute. reflexivity. Qed.

Lemma down_eq :
  setup_connection Mock.engine Mock.down_url None (loaded 0)
  = (Ok "Failed to connect: Cannot connect to host",
     bound (conn Mock.down_url None
              (Some {| url := Mock.down_url; transport_headers := None |})
              {| Mock.of_transport := {| url := Mock.down_url; transport_headers := None |};
                 Mock.fetched := None |})
       1
       [CallTransport Mock.down_url None;
        CallClient {| url := Mock.down_url; transport_headers := None |};
        CallEnter]).
Proof. vm_compute. reflexivity. Qed.

Lemma mutation_rejected_witness :
  is_Some (graphql_client Mock.connected)
  ∧ any_case "MuTaTiOn" "mutation"
  ∧ execute_query Mock.engine ("query { a } # " +:+ "MuTaTiOn" +:+ " is not run") None
      Mock.connected
    = (Ok "Error: Mutations are not allowed", Mock.connected).
Proof.
  assert (H1 : is_Some (graphql_client Mock.connected)) by (by eexists).
  assert (H2 : any_case "MuTaTiOn" "mutation").
  { cbn [any_case]. unfold same_letter.
    repeat split; first [left; reflexivity | right; vm_compute; lia]. }
  exact (conj H1 (conj H2
    (mutation_rejected_without_delegation Mock.engine _ _ _ _ _ H1 H2))).
Defined.

Lemma failed_setup_then_no_guidance :
  ¬ guidance_until_connected Mock.engine 0 [SetupConnection Mock.down_url None] ListTypes.
Proof.
  intros H. specialize (H eq_refl).
  assert (Hnever : never_connected Mock.engine 0 [SetupConnection Mock.down_url None]).
  { intros cr Hin [_ Hr]. rewrite run_cons in Hin. cbn [invoke] in Hin.
    rewrite down_eq in Hin. cbn [fst snd run zip zip_with] in Hin.
    apply list_elem_of_singleton in Hin. by subst cr. }
  specialize (H Hnever). rewrite run_cons in H. cbn [invoke] in H.
  rewrite down_eq in H. cbn [fst snd run] in H.
  rewrite list_types_eq in H. cbn in H. discriminate H.
Qed.

Lemma guidance_before_first_setup_witness :
  Forall (λ c, is_setup c = false) [GetSchema; ListTypes]
  ∧ is_setup (ExecuteQuery "{ me { name } }" None) = false
  ∧ (run Mock.engine [GetSchema; ListTypes] (loaded 0)).2 = loaded 0
  ∧ invoke Mock.engine (ExecuteQuery "{ me { name } }" None)
      (run Mock.engine [GetSchema; ListTypes] (loaded 0)).2
    = (Ok "Error: Please set up connection first using setup_connection", loaded 0).
Proof.
  assert (H1 : Forall (λ c, is_setup c = false) [GetSchema; ListTypes])
    by (repeat constructor).
  exact (conj H1 (conj eq_refl
    (guidance_before_first_setup Mock.engine 0 _ (ExecuteQuery "{ me { name } }" None)
       H1 eq_refl))).
Defined.

Lemma failed_setup_not_atomic :
  ¬ failed_setup_restores Mock.engine Mock.down_url None (loaded 0).
Proof.
  unfold failed_setup_restores. rewrite down_eq. intros H.
  destruct H as [H _]; [by eexists|]. discriminate H.
Qed.

Lemma failed_setup_replaces_holder_witness :
  (setup_connection Mock.engine Mock.down_url None (loaded 0)).1
  = Ok ("Failed to connect: " +:+ "Cannot connect to host")
  ∧ ∃ c, graphql_client (setup_connection Mock.engine Mock.down_url None (loaded 0)).2 = Some c
         ∧ endpoint_url c = Mock.down_url ∧ headers c = None.
Proof.
  assert (H : (setup_connection Mock.engine Mock.down_url None (loaded 0)).1
              = Ok ("Failed to connect: " +:+ "Cannot connect to host"))
    by (vm_compute; reflexivity).
  split; [exact H|].
  exact (proj2 (failed_setup_replaces_holder Mock.engine Mock.down_url None (loaded 0) _ H)).
Defined.

Lemma connected_reachable : reachable Mock.engine Mock.connected.
Proof. exists 0, [SetupConnection Mock.live_url (Some "s3cr3t")]. vm_compute. reflexivity. Defined.

Lemma execute_query_never_raises_witness :
  reachable Mock.engine Mock.connected
  ∧ is_Some (graphql_client Mock.connected)
  ∧ PyStr.contains "mutation" (PyStr.lower "{ you { name } }") = false
  ∧ execute_query Mock.engine "{ you { name } }" None Mock.connected
    = (Ok "{'error': 'Cannot query field'}",
       bound Mock.connection 4
         [CallTransport Mock.live_url Mock.token_headers; CallClient Mock.live_transport;
          CallEnter; CallFetchSchema;
          CallGql "{ you { name } }"; CallEnter; CallExecute "{ you { name } }" None]).
Proof.
  assert (H1 : is_Some (graphql_client Mock.connected)) by (by eexists).
  assert (H2 : PyStr.contains "mutation" (PyStr.lower "{ you { name } }") = false)
    by reflexivity.
  split; [exact connected_reachable|]. split; [exact H1|]. split; [exact H2|].
  destruct (execute_query_never_raises Mock.engine Mock.connected "{ you { name } }" None
              connected_reachable H1 H2) as (_ & Hq & _ & _).
  rewrite (Hq (Exn TransportQueryError "Cannot query field")
              (bound Mock.connection 4
                 [CallTransport Mock.live_url Mock.token_headers;
                  CallClient Mock.live_transport; CallEnter; CallFetchSchema;
                  CallGql "{ you { name } }"; CallEnter;
                  CallExecute "{ you { name } }" None]));
    [reflexivity | vm_compute; reflexivity | reflexivity].
Defined.

Lemma read_query_delegated_once_witness :
  let ready_client :=
    {| Mock.of_transport := Mock.live_transport; Mock.fetched := Some Mock.demo_schema |} in
  let variables := Some [("id", PInt 7)] in
  reachable Mock.engine Mock.connected
  ∧ graphql_client Mock.connected = Some Mock.connection
  ∧ PyStr.contains "mutation" (PyStr.lower "{ me { name } }") = false
  ∧ gql Mock.engine "{ me { name } }" = inr "{ me { name } }"
  ∧ (∀ cl, client Mock.connection = Some cl →
       session_enter Mock.engine cl (world Mock.connected) = (None, ready_client, 3))
  ∧ session_execute Mock.engine ready_client "{ me { name } }" variables 3
    = (inr [("me", PDict [("name", PStr "Ada")])], ready_client, 4)
  ∧ execute_query Mock.engine "{ me { name } }" variables Mock.connected
    = (Ok "{'me': {'name': 'Ada'}}",
       bound (conn (endpoint_url Mock.connection) (headers Mock.connection)
                (transport Mock.connection) ready_client) 4
         (calls Mock.connected
          ++ [CallGql "{ me { name } }"; CallEnter; CallExecute "{ me { name } }" variables])).
Proof.
  intros ready_client variables.
  assert (H1 : graphql_client Mock.connected = Some Mock.connection)
    by (vm_compute; reflexivity).
  assert (H2 : PyStr.contains "mutation" (PyStr.lower "{ me { name } }") = false)
    by reflexivity.
  assert (H3 : gql Mock.engine "{ me { name } }" = inr "{ me { name } }")
    by reflexivity.
  assert (H4 : ∀ cl, client Mock.connection = Some cl →
               session_enter Mock.engine cl (world Mock.connected) = (None, ready_client, 3))
    by (intros cl [= <-]; vm_compute; reflexivity).
  assert (H5 : session_execute Mock.engine ready_client "{ me { name } }" variables 3
               = (inr [("me", PDict [("name", PStr "Ada")])], ready_client, 4))
    by (vm_compute; reflexivity).
  exact (conj connected_reachable (conj H1 (conj H2 (conj H3 (conj H4 (conj H5
    (read_query_delegated_once Mock.engine Mock.connected Mock.connection
       "{ me { name } }" variables "{ me { name } }" ready_client 3
       [("me", PDict [("name", PStr "Ada")])] ready_client 4
       connected_reachable H1 H2 H3 H4 H5))))))).
Defined.

Lemma holder_never_emptied_witness :
  engine_texts_avoid Mock.engine
    "Error: Please set up connection first using setup_connection"
    (run Mock.engine ([GetSchema] ++ SetupConnection Mock.live_url None :: [ListTypes])
       (loaded 0)).2
  ∧ ∀ op, (invoke Mock.engine op
             (run Mock.engine ([GetSchema] ++ SetupConnection Mock.live_url None :: [ListTypes])
                (loaded 0)).2).1
          ≠ Ok "Error: Please set up connection first using setup_connection".
Proof.
  assert (H : engine_texts_avoid Mock.engine
                "Error: Please set up connection first using setup_connection"
                (run Mock.engine ([GetSchema] ++ SetupConnection Mock.live_url None :: [ListTypes])
                   (loaded 0)).2).
  { intros c cl sch Hc Hcl Hsch. vm_compute in Hc. injection Hc as <-.
    injection Hcl as <-. injection Hsch as <-.
    split; [discriminate|]. apply (bool_decide_unpack _). vm_compute. exact I. }
  split; [exact H|].
  apply (holder_never_emptied Mock.engine (loaded 0) [GetSchema] Mock.live_url None [ListTypes]).
  exact H.
Defined.

(** The law on the texts of the engine is needed for [get_type_info]: it
    hands the text of a type back as it is, so an engine that printed a
    type as the guidance string would have it returned after a setup.
    (The gql library prints a type as its name, and a GraphQL name holds
    letters, digits and underscores only.) *)
Example type_text_returned_as_is :
  (get_type_info Mock.parrot "User"
     (setup_connection Mock.parrot Mock.live_url None (loaded 0)).2).1
  = Ok "Error: Please set up connection first using setup_connection".
Proof. vm_compute. reflexivity. Qed.

Lemma initialize_idempotent_witness :
  is_Some (graphql_client Mock.down)
  ∧ Forall (λ op, is_setup op = false) [ListTypes; ExecuteQuery "{ me { name } }" None; GetSchema]
  ∧ GraphQLClient_initialize Mock.engine (GraphQLClient_initialize Mock.engine Mock.down).2
    = (Ok tt, (GraphQLClient_initialize Mock.engine Mock.down).2)
  ∧ ∃ new,
      calls (run Mock.engine [ListTypes; ExecuteQuery "{ me { name } }" None; GetSchema]
               (GraphQLClient_initialize Mock.engine Mock.down).2).2
      = calls (GraphQLClient_initialize Mock.engine Mock.down).2 ++ new
      ∧ Forall (λ x, initializes x = false) new.
Proof.
  assert (H1 : is_Some (graphql_client Mock.down)) by (by eexists).
  assert (H2 : Forall (λ op, is_setup op = false)
                 [ListTypes; ExecuteQuery "{ me { name } }" None; GetSchema])
    by (repeat constructor).
  exact (conj H1 (conj H2 (proj2 (initialize_idempotent Mock.engine Mock.down _ H1 H2)))).
Defined.

Lemma list_types_sorted_names_witness :
  let ready_client :=
    {| Mock.of_transport := Mock.live_transport; Mock.fetched := Some Mock.demo_schema |} in
  graphql_client Mock.connected = Some Mock.connection
  ∧ client Mock.connection = Some ready_client
  ∧ schema Mock.engine ready_client = Some Mock.demo_schema
  ∧ dom (type_map Mock.demo_schema) = {[ "Query"; "Mutation"; "User" ]}
  ∧ list_types Mock.engine Mock.connected
    = (Ok ("Mutation" +:+ PyStr.NL +:+ "Query" +:+ PyStr.NL +:+ "User"), Mock.connected).
Proof.
  intros ready_client.
  assert (H1 : graphql_client Mock.connected = Some Mock.connection)
    by (vm_compute; reflexivity).
  assert (H2 : client Mock.connection = Some ready_client) by reflexivity.
  assert (H3 : schema Mock.engine ready_client = Some Mock.demo_schema) by reflexivity.
  assert (H4 : dom (type_map Mock.demo_schema) = {[ "Query"; "Mutation"; "User" ]})
    by (vm_compute; reflexivity).
  split; [exact H1|]. split; [exact H2|]. split; [exact H3|]. split; [exact H4|].
  destruct (list_types_sorted_names Mock.engine Mock.connected Mock.connection
              ready_client Mock.demo_schema H1 H2 H3)
    as (names & -> & _ & _ & _ & Hnames).
  rewrite (Hnames H4). reflexivity.
Defined.

Lemma empty_token_no_bearer :
  ¬ token_gives_bearer_headers Mock.engine Mock.live_url EmptyString (loaded 0).
Proof.
  intros (c & Hc & Hh).
  destruct (setup_connection_bound Mock.engine Mock.live_url (Some EmptyString) (loaded 0))
    as (r & cl & w' & new & Heq).
  rewrite Heq in Hc. injection Hc as <-. discriminate Hh.
Qed.

Lemma nonempty_token_bearer_headers_witness :
  "s3cr3t" ≠ EmptyString
  ∧ ∃ c rest,
      graphql_client (setup_connection Mock.engine Mock.live_url (Some "s3cr3t") (loaded 0)).2
      = Some c
      ∧ headers c = Some {[ "Authorization" := "Bearer s3cr3t" ]}
      ∧ calls (setup_connection Mock.engine Mock.live_url (Some "s3cr3t") (loaded 0)).2
        = [] ++ CallTransport Mock.live_url (Some {[ "Authorization" := "Bearer s3cr3t" ]}) :: rest.
Proof.
  assert (H : "s3cr3t" ≠ EmptyString) by discriminate.
  exact (conj H (proj1 (nonempty_token_bearer_headers Mock.engine Mock.live_url "s3cr3t"
                          (loaded 0) H))).
Defined.

(** ** Sample runs *)

Example run_before_and_after_setup :
  (run Mock.engine
     [ListTypes;
      SetupConnection Mock.live_url (Some "s3cr3t");
      ListTypes;
      ExecuteQuery "{ me { name } }" None;
      ExecuteQuery "{ you { name } }" None;
      ExecuteQuery "me" None;
      ExecuteQuery "{ MuTaTion }" None;
      GetSchema;
      GetTypeInfo "User";
      GetTypeInfo "Nope"]
     (loaded 0)).1
  = [Ok "Error: Please set up connection first using setup_connection";
     Ok "Successfully connected to GraphQL endpoint";
     Ok ("Mutation" +:+ PyStr.NL +:+ "Query" +:+ PyStr.NL +:+ "User");
     Ok "{'me': {'name': 'Ada'}}";
     Ok "{'error': 'Cannot query field'}";
     Ok "{'error': 'Unexpected error: Syntax Error: Unexpected Name.'}";
     Ok "Error: Mutations are not allowed";
     Ok "<GraphQLSchema>";
     Ok "User";
     Ok "Type 'Nope' not found in schema"].
Proof. vm_compute. reflexivity. Qed.

Example run_after_failed_setup :
  (run Mock.engine
     [SetupConnection Mock.down_url None;
      ListTypes;
      ExecuteQuery "{ me { name } }" None;
      GetSchema;
      GetTypeInfo "User"]
     (loaded 0)).1
  = [Ok "Failed to connect: Cannot connect to host";
     Raised (Exn AttributeError "'NoneType' object has no attribute 'type_map'");
     Ok "{'error': 'Unexpected error: Cannot connect to host'}";
     Ok "None";
     Raised (Exn AttributeError "'NoneType' object has no attribute 'get_type'")].
Proof. vm_compute. reflexivity. Qed.

Example repr_plain : PyStr.repr "boom" = "'boom'".
Proof. reflexivity. Qed.

Example repr_with_quote :
  PyStr.repr "it's"
  = String PyStr.DQUOTE ("it's" +:+ String PyStr.DQUOTE EmptyString).
Proof. reflexivity. Qed.

Example repr_with_newline :
  PyStr.repr ("a" +:+ PyStr.NL +:+ "b")
  = "'a" +:+ String PyStr.BACKSLASH "nb'".
Proof. reflexivity. Qed.

Example str_nested_dict :
  py_str [("data", PDict [("n", PInt 0); ("ok", PBool true); ("xs", PList [PInt (-3); PNone])])]
  = "{'data': {'n': 0, 'ok': True, 'xs': [-3, None]}}".
Proof. vm_compute. reflexivity. Qed.

(** ** More facts about Python strings *)

Lemma prefix_split (a b : string) :
  String.prefix a b = true → ∃ rest, b = a +:+ rest.
Proof.
  revert b. induction a as [|c a IH]; intros b H.
  - by exists b.
  - destruct b as [|d b]; [done|]. simpl in H.
    destruct (ascii_dec c d) as [->|]; [|done].
    destruct (IH b H) as [rest ->]. by exists rest.
Qed.

Lemma contains_split (needle hay : string) :
  PyStr.contains needle hay = true → ∃ before after, hay = before +:+ needle +:+ after.
Proof.
  induction hay as [|c hay IH]; cbn [PyStr.contains]; intros H.
  - rewrite orb_false_r in H. destruct (prefix_split _ _ H) as [rest ->].
    by exists EmptyString, rest.
  - apply orb_true_iff in H as [H|H].
    + destruct (prefix_split _ _ H) as [rest ->]. by exists EmptyString, rest.
    + destruct (IH H) as (before & after & ->). by exists (String c before), after.
Qed.

Lemma lower_split (q a b : string) :
  PyStr.lower q = a +:+ b →
  ∃ qa qb, q = qa +:+ qb ∧ PyStr.lower qa = a ∧ PyStr.lower qb = b.
Proof.
  revert q. induction a as [|c a IH]; intros q H.
  - by exists EmptyString, q.
  - destruct q as [|d q]; [done|]. simpl in H. injection H as Hc H.
    destruct (IH q H) as (qa & qb & -> & <- & <-).
    exists (String d qa), qb. simpl. by rewrite Hc.
Qed.

Lemma lower_char_letter (c p : ascii) :
  97 ≤ nat_of_ascii p ≤ 122 → PyStr.lower_char c = p → same_letter c p.
Proof.
  intros Hp. unfold PyStr.lower_char.
  destruct (_ || _) eqn:Hcase; [|by left].
  intros <-. right. split; [done|].
  assert (Hn : nat_of_ascii c ≤ 222).
  { apply orb_true_iff in Hcase as [H|H].
    - apply andb_true_iff in H as [_ H]. apply Nat.leb_le in H. lia.
    - apply andb_true_iff in H as [H _]. apply andb_true_iff in H as [_ H].
      by apply Nat.leb_le in H. }
  by rewrite nat_ascii_embedding by lia.
Qed.

Lemma lower_mutation (w : string) : PyStr.lower w = "mutation" → any_case w "mutation".
Proof.
  intros H.
  repeat (destruct w as [|? w]; [discriminate H|]; simpl in H;
          injection H as ? H).
  destruct w; [|discriminate H]. cbn [any_case].
  repeat split; apply lower_char_letter; (assumption || (vm_compute; lia)).
Qed.

(** ** More facts about the operations *)

Section MoreFacts.

Context {World DocumentNode GraphQLNamedType Client : Type}.
Variable E : Engine World DocumentNode GraphQLNamedType Client.

(** [setup_connection], case by case on what the engine answers. *)
Lemma setup_connection_cases u tok (s : state) :
  setup_connection E u tok s
  = let hd := setup_headers tok in
    let tr := {| url := u; transport_headers := hd |} in
    let '(o1, cl1, w1) := session_enter E (new_Client E tr) (world s) in
    match o1 with
    | Some e =>
        (Ok ("Failed to connect: " +:+ str_of e),
         bound (conn u hd (Some tr) cl1) w1
           (calls s ++ [CallTransport u hd; CallClient tr; CallEnter]))
    | None =>
        let '(o2, cl2, w2) := session_fetch_schema E cl1 w1 in
        (Ok match o2 with
            | Some e => "Failed to connect: " +:+ str_of e
            | None => "Successfully connected to GraphQL endpoint"
            end,
         bound (conn u hd (Some tr) cl2) w2
           (calls s ++ [CallTransport u hd; CallClient tr; CallEnter; CallFetchSchema]))
    end.
Proof.
  rewrite setup_connection_eq. cbv zeta. rewrite initialize_fresh. cbv zeta.
  unfold setup_headers.
  destruct (session_enter E _ _) as [[[e|] cl1] w1]; [done|].
  by destruct (session_fetch_schema E _ _) as [[[e|] cl2] w2].
Qed.

Lemma wired_bound_conn u hd (cl : Client) (w : World) (l : list (engine_call DocumentNode)) :
  wired (bound (conn u hd (Some {| url := u; transport_headers := hd |}) cl) w l).
Proof. intros c [= <-]. split; [by eexists|done]. Qed.

Lemma wired_ready (s : @state World DocumentNode Client) : wired s → ready s.
Proof. intros H c Hc. by destruct (H c Hc). Qed.

Lemma setup_connection_wired u tok (s : state) : wired (setup_connection E u tok s).2.
Proof.
  rewrite setup_connection_cases. cbv zeta.
  destruct (session_enter E _ _) as [[[e|] cl1] w1]; [apply wired_bound_conn|].
  destruct (session_fetch_schema E _ _) as [[o cl2] w2]. apply wired_bound_conn.
Qed.

(** What an operation other than [setup_connection] does to a connected
    state: the connection keeps its endpoint, headers and transport, and
    the log grows by the calls of [op_calls]. *)
Lemma invoke_connected_calls op u hd t cl w l :
  is_setup op = false →
  ∃ r cl' w' new,
    invoke E op (bound (conn u hd t cl) w l) = (r, bound (conn u hd t cl') w' (l ++ new))
    ∧ op_calls E op new.
Proof.
  intros Hop. destruct op as [| q v | | n |]; [done| | | |]; cbn [invoke op_calls].
  - destruct (PyStr.contains "mutation" (PyStr.lower q)) eqn:Hq.
    + rewrite (execute_query_guarded E q v _ (conn u hd t cl)) by done.
      exists (Ok "Error: Mutations are not allowed"), cl, w, [].
      rewrite app_nil_r. split; [done|by left].
    + rewrite execute_query_eq, delegate_query_eq by done.
      destruct (gql E q) as [e|document] eqn:Hgql.
      { eexists _, _, _, _. split; [done|]. right. split; [done|]. by left. }
      destruct (session_enter E cl w) as [[[e|] cl1] w1].
      { eexists _, _, _, _. split; [done|]. right. split; [done|]. right.
        exists document. split; [done|]. by left. }
      destruct (session_execute E cl1 document v w1) as [[[e|d] cl2] w2];
        (eexists _, _, _, _; split; [done|]; right; split; [done|]; right;
         exists document; split; [done|]; by right).
  - rewrite get_schema_eq. eexists _, cl, w, []. by rewrite app_nil_r.
  - rewrite get_type_info_eq. eexists _, cl, w, []. by rewrite app_nil_r.
  - rewrite list_types_eq. eexists _, cl, w, []. by rewrite app_nil_r.
Qed.

Lemma op_calls_nil op : is_setup op = false → op_calls E op [].
Proof. destruct op; cbn [op_calls]; by (done || left). Qed.

(** The log after one operation, in a state whose bound holder has a client. *)
Lemma invoke_calls op (s : state) :
  ready s → ∃ new, calls (invoke E op s).2 = calls s ++ new ∧ op_calls E op new.
Proof.
  intros Hr. destruct (is_setup op) eqn:Hop.
  - destruct op as [u tok| | | |]; try discriminate Hop. cbn [invoke op_calls].
    rewrite setup_connection_cases. cbv zeta.
    destruct (session_enter E _ _) as [[[e|] cl1] w1].
    { eexists. split; [done|]. by left. }
    destruct (session_fetch_schema E _ _) as [[o cl2] w2].
    eexists. split; [done|]. by right.
  - destruct (graphql_client s) as [c|] eqn:Hc.
    + destruct (ready_inv s c Hr Hc) as (cl & Hs & _).
      destruct (invoke_connected_calls op (endpoint_url c) (headers c) (transport c) cl
                  (world s) (calls s) Hop) as (r & cl' & w' & new & Heq & Hnew).
      rewrite <- Hs in Heq. exists new. by rewrite Heq.
    + rewrite invoke_unbound by done. exists []. rewrite app_nil_r.
      split; [done|]. by apply op_calls_nil.
Qed.

Lemma invoke_wired op (s : state) : wired s → wired (invoke E op s).2.
Proof.
  intros Hw. destruct (is_setup op) eqn:Hop.
  - destruct op as [u tok| | | |]; try discriminate Hop. apply setup_connection_wired.
  - destruct (graphql_client s) as [c|] eqn:Hc.
    + destruct (Hw c Hc) as [[cl Hcl] Ht].
      rewrite (bound_inv s c Hc), (conn_inv c cl Hcl), Ht.
      destruct (invoke_connected_calls op (endpoint_url c) (headers c)
                  (Some {| url := endpoint_url c; transport_headers := headers c |}) cl
                  (world s) (calls s) Hop) as (r & cl' & w' & new & -> & _).
      apply wired_bound_conn.
    + by rewrite invoke_unbound.
Qed.

Lemma run_wired cs (s : state) : wired s → wired (run E cs s).2.
Proof.
  revert s. induction cs as [|c cs IH]; intros s Hs; [done|].
  rewrite run_cons. cbn [snd]. by apply IH, invoke_wired.
Qed.

Lemma reachable_wired (s : state) : reachable E s → wired s.
Proof. intros (w & cs & ->). apply run_wired. by intros c. Qed.

(** The log of a whole run, in terms of the logs of its operations. *)
Lemma run_calls cs (s : state) :
  ready s →
  ∃ news,
    calls (run E cs s).2 = calls s ++ concat news
    ∧ Forall2 (op_calls E) cs news.
Proof.
  revert s. induction cs as [|c cs IH]; intros s Hs.
  - exists []. by rewrite app_nil_r.
  - rewrite run_cons. cbn [snd].
    destruct (invoke_calls c s Hs) as (new & Hnew & Hop).
    destruct (IH (invoke E c s).2 (invoke_ready E c s Hs)) as (news & -> & Hnews).
    exists (new :: news). rewrite Hnew. cbn [concat]. rewrite app_assoc.
    split; [done|]. by constructor.
Qed.

Lemma op_calls_guarded op new : op_calls E op new → Forall (guarded_call E) new.
Proof.
  destruct op as [u tok|q v| |n|]; cbn [op_calls].
  - intros [->| ->]; by repeat constructor.
  - intros [->|[Hq [->|(document & Hgql & [->| ->])]]]; repeat constructor; try done.
    by exists q.
  - by intros ->.
  - by intros ->.
  - by intros ->.
Qed.

Lemma op_calls_clients op new :
  op_calls E op new → length (filter (λ x, builds_client x = true) new)
                      = if is_setup op then 1 else 0.
Proof.
  destruct op as [u tok|q v| |n|]; cbn [op_calls is_setup].
  - by intros [->| ->].
  - by intros [->|[Hq [->|(document & Hgql & [->| ->])]]].
  - by intros ->.
  - by intros ->.
  - by intros ->.
Qed.

Lemma py_str_not_rejection (d : pydict) : py_str d ≠ "Error: Mutations are not allowed".
Proof. unfold py_str. cbn [py_repr]. discriminate. Qed.

Lemma concat_clients cs (news : list (list (engine_call DocumentNode))) :
  Forall2 (op_calls E) cs news →
  length (filter (λ x, builds_client x = true) (concat news))
  = length (filter (λ c, is_setup c = true) cs).
Proof.
  induction 1 as [|c new cs news Hc _ IH]; [done|].
  cbn [concat]. rewrite filter_app, length_app, IH, (op_calls_clients c new Hc).
  rewrite filter_cons. destruct (is_setup c); by simplify_eq/=.
Qed.

Lemma concat_guarded cs (news : list (list (engine_call DocumentNode))) :
  Forall2 (op_calls E) cs news → Forall (guarded_call E) (concat news).
Proof.
  induction 1 as [|c new cs news Hc _ IH]; [done|].
  cbn [concat]. apply Forall_app. split; [by eapply op_calls_guarded|done].
Qed.

(** [GraphQLClient.execute_query] on an object whose client is not built. *)
Lemma client_execute_query_fresh q v u hd t w l :
  GraphQLClient_execute_query E q v
    (bound {| endpoint_url := u; headers := hd; transport := t; client := None |} w l)
  = match GraphQLClient_initialize E
            (bound {| endpoint_url := u; headers := hd; transport := t; client := None |} w l)
    with
    | (Ok _, s') =>
        match delegate_query E q v s' with
        | (Ok d, s'') => (Ok d, s'')
        | (Raised e, s'') => (Ok (error_result e), s'')
        end
    | (Raised e, s') => (Raised e, s')
    end.
Proof.
  cbv beta iota zeta delta
    [GraphQLClient_execute_query bind self get ret raise try_except bound
     graphql_client client error_result].
  destruct (GraphQLClient_initialize E _) as [[[]|e] s']; [|done].
  destruct (delegate_query E q v s') as [[d|e] s'']; [done|].
  by destruct (class_of e).
Qed.

End MoreFacts.

(** ** Further properties of the code *)

Section Extras.

Context {World DocumentNode GraphQLNamedType Client : Type}.
Variable E : Engine World DocumentNode GraphQLNamedType Client.

(** X1. [setup_connection] never raises: in every state and for every
    engine it returns either the success string or the text Failed to
    connect followed by the message of an exception. *)
Theorem setup_connection_answers u tok (s : state) :
  ∃ text,
    (setup_connection E u tok s).1 = Ok text
    ∧ (text = "Successfully connected to GraphQL endpoint"
       ∨ ∃ e, text = "Failed to connect: " +:+ str_of e).
Proof.
  rewrite setup_connection_cases. cbv zeta.
  destruct (session_enter E _ _) as [[[e|] cl1] w1]; [by eauto|].
  destruct (session_fetch_schema E _ _) as [[[e|] cl2] w2]; by eauto.
Qed.

(** X2. [setup_connection] returns the success string exactly when, on the
    client it has just built, entering the session and fetching the schema
    both complete without an exception. *)
Theorem setup_succeeds_iff u tok (s : state) :
  (setup_connection E u tok s).1 = Ok "Successfully connected to GraphQL endpoint"
  ↔ ∃ cl1 w1 cl2 w2,
      session_enter E (new_Client E {| url := u; transport_headers := setup_headers tok |})
        (world s) = (None, cl1, w1)
      ∧ session_fetch_schema E cl1 w1 = (None, cl2, w2).
Proof.
  rewrite setup_connection_cases. cbv zeta.
  destruct (session_enter E _ _) as [[[e|] cl1] w1].
  { split; [discriminate|]. by intros (? & ? & ? & ? & [=] & _). }
  destruct (session_fetch_schema E cl1 w1) as [[[e|] cl2] w2] eqn:Hf.
  - split; [discriminate|]. intros (? & ? & ? & ? & [= <- <-] & H). by rewrite Hf in H.
  - split; [|done]. intros _. by exists cl1, w1, cl2, w2.
Qed.

(** X3. When entering the session raises [e], [setup_connection] returns
    Failed to connect followed by [str(e)], never attempts the schema fetch
    (the log ends with the session entry), and leaves the holder bound to
    the new connection with its transport and client. *)
Theorem setup_entry_failure u tok (s : state) e cl1 w1 :
  let hd := setup_headers tok in
  let tr := {| url := u; transport_headers := hd |} in
  session_enter E (new_Client E tr) (world s) = (Some e, cl1, w1) →
  setup_connection E u tok s
  = (Ok ("Failed to connect: " +:+ str_of e),
     bound (conn u hd (Some tr) cl1) w1
       (calls s ++ [CallTransport u hd; CallClient tr; CallEnter])).
Proof. intros hd tr H. rewrite setup_connection_cases. cbv zeta. fold hd tr. by rewrite H. Qed.

(** X4. [setup_connection] replaces the connection entirely: its result
    and the state it leaves do not depend on what the holder was bound to
    before the call. *)
Theorem setup_overwrites_holder u tok (s : state) old :
  setup_connection E u tok {| graphql_client := old; world := world s; calls := calls s |}
  = setup_connection E u tok s.
Proof. by rewrite !setup_connection_cases. Qed.

(** X5. In every reachable state a bound holder has a client, and its
    transport is the one built from its own endpoint URL and headers. *)
Theorem reachable_transport_matches (s : state) c :
  reachable E s → graphql_client s = Some c →
  is_Some (client c)
  ∧ transport c = Some {| url := endpoint_url c; transport_headers := headers c |}.
Proof. intros Hr Hc. by apply (reachable_wired E s Hr). Qed.

(** X6. In a reachable state no operation other than [setup_connection]
    changes the endpoint URL, the headers or the transport of the
    connection: only the state of the client object may move. *)
Theorem operations_keep_endpoint op (s : state) c :
  reachable E s → graphql_client s = Some c → is_setup op = false →
  ∃ c', graphql_client (invoke E op s).2 = Some c'
        ∧ endpoint_url c' = endpoint_url c
        ∧ headers c' = headers c
        ∧ transport c' = transport c.
Proof.
  intros Hr Hc Hop.
  destruct (ready_inv s c (reachable_ready E s Hr) Hc) as (cl & Hs & _).
  destruct (invoke_connected_calls E op (endpoint_url c) (headers c) (transport c) cl
              (world s) (calls s) Hop) as (r & cl' & w' & new & Heq & _).
  rewrite <- Hs in Heq. rewrite Heq. by eexists.
Qed.

(** X7. In a reachable state [get_schema], [get_type_info] and
    [list_types] leave the whole process state as it was, whether they
    return or raise: no library call, no network, no change of the
    connection. *)
Theorem introspection_leaves_state op (s : state) :
  reachable E s → introspects op = true → (invoke E op s).2 = s.
Proof.
  intros Hr Hop. destruct (graphql_client s) as [c|] eqn:Hc.
  - destruct (ready_inv s c (reachable_ready E s Hr) Hc) as (cl & Hs & _).
    rewrite Hs. destruct op; try discriminate Hop; cbn [invoke].
    + by rewrite get_schema_eq.
    + by rewrite get_type_info_eq.
    + by rewrite list_types_eq.
  - rewrite invoke_unbound; [done..|]. by destruct op.
Qed.

(** X8. With a fetched schema [list_types] and [get_type_info] agree: for
    every name on a line of [list_types], [get_type_info] returns the text
    of the type registered under it, and for every other name it returns
    the message Type, the quoted name, not found in schema. *)
Theorem list_types_agrees_with_get_type_info (s : state) c cl sch :
  graphql_client s = Some c → client c = Some cl → schema E cl = Some sch →
  ∃ names,
    list_types E s = (Ok (PyStr.join PyStr.NL names), s)
    ∧ ∀ n,
        (n ∈ names →
         ∃ type_def, type_map sch !! n = Some type_def
                     ∧ get_type_info E n s = (Ok (str_type E type_def), s))
        ∧ (n ∉ names →
           get_type_info E n s = (Ok ("Type '" +:+ n +:+ "' not found in schema"), s)).
Proof.
  intros Hc Hcl Hsch. exists (PyStr.sorted (map_to_list (type_map sch)).*1).
  assert (Hin : ∀ n, n ∈ PyStr.sorted (map_to_list (type_map sch)).*1
                     ↔ is_Some (type_map sch !! n)).
  { intros n. unfold PyStr.sorted. rewrite merge_sort_Permutation, list_elem_of_fmap. split.
    - intros ([k x] & -> & Hkx). apply elem_of_map_to_list in Hkx. by eexists.
    - intros [x Hx]. exists (n, x). split; [done|]. by apply elem_of_map_to_list. }
  rewrite (bound_inv s c Hc), (conn_inv c cl Hcl).
  split; [by rewrite list_types_eq, Hsch|].
  intros n. rewrite get_type_info_eq, Hsch. unfold get_type. rewrite Hin. split.
  - intros [type_def Ht]. exists type_def. by rewrite Ht.
  - intros Hn. destruct (type_map sch !! n) eqn:Ht; [|done]. destruct Hn. by eexists.
Qed.

(** X9. When the holder is bound to a connection whose client has no
    schema (as after a setup whose schema fetch failed), [list_types] and
    [get_type_info] raise [AttributeError] on [None], and [get_schema]
    returns the text None; the state is unchanged. *)
Theorem missing_schema_behaviour (s : state) c cl n :
  graphql_client s = Some c → client c = Some cl → schema E cl = None →
  list_types E s
  = (Raised (Exn AttributeError "'NoneType' object has no attribute 'type_map'"), s)
  ∧ get_type_info E n s
    = (Raised (Exn AttributeError "'NoneType' object has no attribute 'get_type'"), s)
  ∧ get_schema E s = (Ok "None", s).
Proof.
  intros Hc Hcl Hsch. rewrite (bound_inv s c Hc), (conn_inv c cl Hcl).
  by rewrite list_types_eq, get_type_info_eq, get_schema_eq, Hsch.
Qed.

(** X10. In a reachable state the three reading operations raise only
    that way: if one raises, it is not [get_schema], the exception is an
    [AttributeError], and the holder is bound to a connection whose client
    has no schema. *)
Theorem introspection_raises_only_without_schema op (s : state) e :
  reachable E s → introspects op = true → (invoke E op s).1 = Raised e →
  op ≠ GetSchema
  ∧ class_of e = AttributeError
  ∧ ∃ c cl, graphql_client s = Some c ∧ client c = Some cl ∧ schema E cl = None.
Proof.
  intros Hr Hop. destruct (graphql_client s) as [c|] eqn:Hc.
  - destruct (ready_inv s c (reachable_ready E s Hr) Hc) as (cl & Hs & Hcl).
    rewrite Hs. destruct op; try discriminate Hop; cbn [invoke].
    + by rewrite get_schema_eq.
    + rewrite get_type_info_eq. destruct (schema E cl) eqn:Hsch; [done|].
      intros [= <-]. split; [done|]. split; [done|]. by exists c, cl.
    + rewrite list_types_eq. destruct (schema E cl) eqn:Hsch; [done|].
      intros [= <-]. split; [done|]. split; [done|]. by exists c, cl.
  - rewrite invoke_unbound; [done..|]. by destruct op.
Qed.

(** X11. With a bound holder, [execute_query] answers with the rejection
    string exactly when the query text contains the word mutation, its
    letters in any case: a query without the word is never rejected. *)
Theorem mutation_guard_exact (s : state) q v :
  is_Some (graphql_client s) →
  (execute_query E q v s).1 = Ok "Error: Mutations are not allowed"
  ↔ ∃ before word after, q = before +:+ word +:+ after ∧ any_case word "mutation".
Proof.
  intros [c Hc]. split.
  - destruct (PyStr.contains "mutation" (PyStr.lower q)) eqn:Hq.
    + intros _. destruct (contains_split _ _ Hq) as (a & b & Hab).
      destruct (lower_split _ _ _ Hab) as (before & rest & -> & _ & Hrest).
      destruct (lower_split _ _ _ Hrest) as (word & after & -> & Hword & _).
      exists before, word, after. split; [done|]. by apply lower_mutation.
    + cbv beta iota zeta delta [execute_query bind get ret]. rewrite Hc, Hq.
      destruct (GraphQLClient_execute_query E q v s) as [[d|e] s']; cbn [fst]; [|done].
      intros H. destruct (py_str_not_rejection d). congruence.
  - intros (before & word & after & -> & Hword).
    rewrite (execute_query_guarded E _ v s c Hc); [done|].
    rewrite !lower_app, (any_case_mutation _ Hword). apply contains_middle.
Qed.

(** X12. Whatever calls are made after loading the module, every text
    handed to [gql] passed the mutation guard, and every document handed
    to [session.execute] was parsed from such a text. *)
Theorem log_holds_guarded_queries (w : World) cs :
  (∀ q, CallGql q ∈ calls (run E cs (loaded w)).2 →
        PyStr.contains "mutation" (PyStr.lower q) = false)
  ∧ (∀ document v, CallExecute document v ∈ calls (run E cs (loaded w)).2 →
        ∃ q, gql E q = inr document
             ∧ PyStr.contains "mutation" (PyStr.lower q) = false).
Proof.
  destruct (run_calls E cs (loaded w) (ready_loaded w)) as (news & -> & Hnews).
  pose proof (concat_guarded E cs news Hnews) as Hg. cbn [loaded calls app].
  rewrite Forall_forall in Hg. split.
  - intros q Hq. exact (Hg _ Hq).
  - intros document v Hx. exact (Hg _ Hx).
Qed.

(** X13. Whatever calls are made after loading the module, the number of
    [Client] objects constructed equals the number of [setup_connection]
    calls: each setup builds exactly one, no other operation builds any. *)
Theorem one_client_per_setup (w : World) cs :
  length (filter (λ x, builds_client x = true) (calls (run E cs (loaded w)).2))
  = length (filter (λ c, is_setup c = true) cs).
Proof.
  destruct (run_calls E cs (loaded w) (ready_loaded w)) as (news & -> & Hnews).
  cbn [loaded calls app]. by apply (concat_clients E).
Qed.

(** X14. [GraphQLClient.execute_query] on an object whose client has not
    been built initializes it first, outside its [try] block: when the
    session entry of that initialization raises, the exception propagates
    to the caller and the query is never parsed. *)
Theorem lazy_initialization_failure_propagates q v u hd t w l e cl1 w1 :
  let tr := {| url := u; transport_headers := hd |} in
  session_enter E (new_Client E tr) w = (Some e, cl1, w1) →
  GraphQLClient_execute_query E q v
    (bound {| endpoint_url := u; headers := hd; transport := t; client := None |} w l)
  = (Raised e,
     bound (conn u hd (Some tr) cl1) w1 (l ++ [CallTransport u hd; CallClient tr; CallEnter])).
Proof.
  intros tr H. rewrite client_execute_query_fresh, initialize_fresh. cbv zeta. fold tr.
  by rewrite H.
Qed.

(** X15. [GraphQLClient.get_schema] on an object whose client has not been
    built initializes it first; when the session entry and the schema
    fetch succeed, it returns the text of the schema the client then has. *)
Theorem lazy_get_schema_initializes u hd t w l cl1 w1 cl2 w2 :
  let tr := {| url := u; transport_headers := hd |} in
  session_enter E (new_Client E tr) w = (None, cl1, w1) →
  session_fetch_schema E cl1 w1 = (None, cl2, w2) →
  GraphQLClient_get_schema E
    (bound {| endpoint_url := u; headers := hd; transport := t; client := None |} w l)
  = (Ok match schema E cl2 with
        | Some sch => str_schema E sch
        | None => "None"
        end,
     bound (conn u hd (Some tr) cl2) w2
       (l ++ [CallTransport u hd; CallClient tr; CallEnter; CallFetchSchema])).
Proof.
  intros tr Henter Hfetch.
  pose proof (initialize_fresh E u hd t w l) as Hi. cbv zeta in Hi. fold tr in Hi.
  rewrite Henter, Hfetch in Hi. unfold bound at 1 in Hi.
  cbv beta iota zeta delta
    [GraphQLClient_get_schema bind self get ret raise bound graphql_client client].
  rewrite Hi. reflexivity.
Qed.

(** X16. In a reachable state with a bound holder, a query that passes the
    guard and that [gql] refuses with [e] makes [execute_query] return the
    text of the dict with the one key ['error']: its value is [str(e)] for
    a [TransportQueryError] and [str(e)] after ["Unexpected error: "] for
    any other exception.  The only library call is the parse, and the
    world and the connection are unchanged. *)
Theorem parse_failure_stays_local (s : state) q v e :
  reachable E s → is_Some (graphql_client s) →
  PyStr.contains "mutation" (PyStr.lower q) = false →
  gql E q = inl e →
  execute_query E q v s
  = (Ok ("{'error': "
         +:+ PyStr.repr match class_of e with
                        | TransportQueryError => str_of e
                        | _ => "Unexpected error: " +:+ str_of e
                        end
         +:+ "}"),
     {| graphql_client := graphql_client s; world := world s;
        calls := calls s ++ [CallGql q] |}).
Proof.
  intros Hr [c Hc] Hq Hgql. destruct (reachable_ready E s Hr c Hc) as [cl Hcl].
  destruct s as [h w l]. cbn in Hc. subst h.
  destruct c as [u hd t cl0]. cbn in Hcl. subst cl0.
  rewrite <- py_str_error.
  change (execute_query E q v (bound (conn u hd t cl) w l)
          = (Ok (py_str (error_result e)), bound (conn u hd t cl) w (l ++ [CallGql q]))).
  by rewrite execute_query_eq, delegate_query_eq, Hgql by done.
Qed.

(** X17. With a connected holder, when a query passes the guard and parses
    but entering the session raises [e], [execute_query] returns the text
    of the dict with the one key ['error'], whose value is [str(e)] for a
    [TransportQueryError] and [str(e)] after ["Unexpected error: "] for
    any other exception, and [session.execute] is never called. *)
Theorem entry_failure_skips_execute (s : state) c cl q v document e cl1 w1 :
  graphql_client s = Some c → client c = Some cl →
  PyStr.contains "mutation" (PyStr.lower q) = false →
  gql E q = inr document →
  session_enter E cl (world s) = (Some e, cl1, w1) →
  execute_query E q v s
  = (Ok ("{'error': "
         +:+ PyStr.repr match class_of e with
                        | TransportQueryError => str_of e
                        | _ => "Unexpected error: " +:+ str_of e
                        end
         +:+ "}"),
     bound (conn (endpoint_url c) (headers c) (transport c) cl1) w1
       (calls s ++ [CallGql q; CallEnter])).
Proof.
  intros Hc Hcl Hq Hgql Henter.
  rewrite (bound_inv s c Hc) at 1. rewrite (conn_inv c cl Hcl) at 1.
  rewrite execute_query_eq, delegate_query_eq, Hgql, Henter by done.
  unfold error_result. by rewrite py_str_error.
Qed.

(** X18. For an engine whose successful [fetch_schema] leaves the client
    with a schema: right after a [setup_connection] that returned the
    success string, the holder is bound to a connection whose client holds
    a schema; [get_schema] returns the text of that very schema and
    [list_types] the sorted names of its types, one per line, and neither
    raises. *)
Theorem setup_then_introspection u tok (s : state) :
  (∀ cl w cl' w', session_fetch_schema E cl w = (None, cl', w') → is_Some (schema E cl')) →
  (setup_connection E u tok s).1 = Ok "Successfully connected to GraphQL endpoint" →
  ∃ c cl sch,
    graphql_client (setup_connection E u tok s).2 = Some c
    ∧ client c = Some cl
    ∧ schema E cl = Some sch
    ∧ get_schema E (setup_connection E u tok s).2
      = (Ok (str_schema E sch), (setup_connection E u tok s).2)
    ∧ list_types E (setup_connection E u tok s).2
      = (Ok (PyStr.join PyStr.NL (PyStr.sorted (map_to_list (type_map sch)).*1)),
         (setup_connection E u tok s).2).
Proof.
  intros Hlaw. rewrite setup_connection_eq. cbv zeta. rewrite initialize_fresh. cbv zeta.
  destruct (session_enter E _ _) as [[[e|] cl1] w1]; [discriminate|].
  destruct (session_fetch_schema E cl1 w1) as [[[e|] cl2] w2] eqn:Hf; [discriminate|].
  intros _. destruct (Hlaw _ _ _ _ Hf) as [sch Hsch].
  eexists _, cl2, sch. cbn [snd]. split; [done|]. split; [done|]. split; [done|].
  by rewrite get_schema_eq, list_types_eq, Hsch.
Qed.

End Extras.

(** ** The further properties on the scripted engine *)

Lemma down_reachable : reachable Mock.engine Mock.down.
Proof. exists 0, [SetupConnection Mock.down_url None]. vm_compute. reflexivity. Defined.

Lemma setup_entry_failure_witness :
  let tr := {| url := Mock.down_url; transport_headers := setup_headers None |} in
  let cl := {| Mock.of_transport := tr; Mock.fetched := None |} in
  session_enter Mock.engine (new_Client Mock.engine tr) 0
  = (Some Mock.unreachable, cl, 1)
  ∧ setup_connection Mock.engine Mock.down_url None (loaded 0)
    = (Ok ("Failed to connect: " +:+ str_of Mock.unreachable),
       bound (conn Mock.down_url (setup_headers None) (Some tr) cl) 1
         ([] ++ [CallTransport Mock.down_url (setup_headers None); CallClient tr; CallEnter])).
Proof.
  intros tr cl.
  assert (H : session_enter Mock.engine (new_Client Mock.engine tr) 0
              = (Some Mock.unreachable, cl, 1)) by (vm_compute; reflexivity).
  exact (conj H (setup_entry_failure Mock.engine Mock.down_url None (loaded 0)
                   Mock.unreachable cl 1 H)).
Defined.

Lemma reachable_transport_matches_witness :
  reachable Mock.engine Mock.connected
  ∧ graphql_client Mock.connected = Some Mock.connection
  ∧ is_Some (client Mock.connection)
  ∧ transport Mock.connection
    = Some {| url := endpoint_url Mock.connection;
              transport_headers := headers Mock.connection |}.
Proof.
  assert (H : graphql_client Mock.connected = Some Mock.connection)
    by (vm_compute; reflexivity).
  exact (conj connected_reachable (conj H
    (reachable_transport_matches Mock.engine Mock.connected Mock.connection
       connected_reachable H))).
Defined.

Lemma operations_keep_endpoint_witness :
  reachable Mock.engine Mock.connected
  ∧ graphql_client Mock.connected = Some Mock.connection
  ∧ is_setup (ExecuteQuery "{ me { name } }" None) = false
  ∧ ∃ c', graphql_client
            (invoke Mock.engine (ExecuteQuery "{ me { name } }" None) Mock.connected).2
          = Some c'
          ∧ endpoint_url c' = endpoint_url Mock.connection
          ∧ headers c' = headers Mock.connection
          ∧ transport c' = transport Mock.connection.
Proof.
  assert (H : graphql_client Mock.connected = Some Mock.connection)
    by (vm_compute; reflexivity).
  exact (conj connected_reachable (conj H (conj eq_refl
    (operations_keep_endpoint Mock.engine (ExecuteQuery "{ me { name } }" None)
       Mock.connected Mock.connection connected_reachable H eq_refl)))).
Defined.

Lemma introspection_leaves_state_witness :
  reachable Mock.engine Mock.down
  ∧ introspects ListTypes = true
  ∧ (invoke Mock.engine ListTypes Mock.down).2 = Mock.down.
Proof.
  exact (conj down_reachable (conj eq_refl
    (introspection_leaves_state Mock.engine ListTypes Mock.down down_reachable eq_refl))).
Defined.

Lemma list_types_agrees_with_get_type_info_witness :
  let ready_client :=
    {| Mock.of_transport := Mock.live_transport; Mock.fetched := Some Mock.demo_schema |} in
  graphql_client Mock.connected = Some Mock.connection
  ∧ client Mock.connection = Some ready_client
  ∧ schema Mock.engine ready_client = Some Mock.demo_schema
  ∧ ∃ names,
      list_types Mock.engine Mock.connected = (Ok (PyStr.join PyStr.NL names), Mock.connected)
      ∧ ∀ n,
          (n ∈ names →
           ∃ type_def, type_map Mock.demo_schema !! n = Some type_def
                       ∧ get_type_info Mock.engine n Mock.connected
                         = (Ok (str_type Mock.engine type_def), Mock.connected))
          ∧ (n ∉ names →
             get_type_info Mock.engine n Mock.connected
             = (Ok ("Type '" +:+ n +:+ "' not found in schema"), Mock.connected)).
Proof.
  intros ready_client.
  assert (H1 : graphql_client Mock.connected = Some Mock.connection)
    by (vm_compute; reflexivity).
  assert (H2 : client Mock.connection = Some ready_client) by reflexivity.
  assert (H3 : schema Mock.engine ready_client = Some Mock.demo_schema) by reflexivity.
  exact (conj H1 (conj H2 (conj H3
    (list_types_agrees_with_get_type_info Mock.engine Mock.connected Mock.connection
       ready_client Mock.demo_schema H1 H2 H3)))).
Defined.

Lemma missing_schema_behaviour_witness :
  let tr := {| url := Mock.down_url; transport_headers := None |} in
  let cl := {| Mock.of_transport := tr; Mock.fetched := None |} in
  let c := conn Mock.down_url None (Some tr) cl in
  graphql_client Mock.down = Some c
  ∧ client c = Some cl
  ∧ schema Mock.engine cl = None
  ∧ list_types Mock.engine Mock.down
    = (Raised (Exn AttributeError "'NoneType' object has no attribute 'type_map'"), Mock.down)
  ∧ get_type_info Mock.engine "User" Mock.down
    = (Raised (Exn AttributeError "'NoneType' object has no attribute 'get_type'"), Mock.down)
  ∧ get_schema Mock.engine Mock.down = (Ok "None", Mock.down).
Proof.
  intros tr cl c.
  assert (H1 : graphql_client Mock.down = Some c) by (vm_compute; reflexivity).
  assert (H2 : client c = Some cl) by reflexivity.
  assert (H3 : schema Mock.engine cl = None) by reflexivity.
  exact (conj H1 (conj H2 (conj H3
    (missing_schema_behaviour Mock.engine Mock.down c cl "User" H1 H2 H3)))).
Defined.

Lemma introspection_raises_only_without_schema_witness :
  let e := Exn AttributeError "'NoneType' object has no attribute 'type_map'" in
  reachable Mock.engine Mock.down
  ∧ introspects ListTypes = true
  ∧ (invoke Mock.engine ListTypes Mock.down).1 = Raised e
  ∧ ListTypes ≠ GetSchema
  ∧ class_of e = AttributeError
  ∧ ∃ c cl, graphql_client Mock.down = Some c ∧ client c = Some cl
            ∧ schema Mock.engine cl = None.
Proof.
  intros e.
  assert (H : (invoke Mock.engine ListTypes Mock.down).1 = Raised e)
    by (vm_compute; reflexivity).
  exact (conj down_reachable (conj eq_refl (conj H
    (introspection_raises_only_without_schema Mock.engine ListTypes Mock.down e
       down_reachable eq_refl H)))).
Defined.

Lemma mutation_guard_exact_witness :
  is_Some (graphql_client Mock.connected)
  ∧ ((execute_query Mock.engine "{ me { name } }" None Mock.connected).1
     = Ok "Error: Mutations are not allowed"
     ↔ ∃ before word after,
         "{ me { name } }" = before +:+ word +:+ after ∧ any_case word "mutation").
Proof.
  assert (H : is_Some (graphql_client Mock.connected)) by (by eexists).
  exact (conj H (mutation_guard_exact Mock.engine Mock.connected "{ me { name } }" None H)).
Defined.

Lemma lazy_initialization_failure_propagates_witness :
  let tr := {| url := Mock.down_url; transport_headers := None |} in
  let cl := {| Mock.of_transport := tr; Mock.fetched := None |} in
  session_enter Mock.engine (new_Client Mock.engine tr) 0 = (Some Mock.unreachable, cl, 1)
  ∧ GraphQLClient_execute_query Mock.engine "{ me { name } }" None
      (bound {| endpoint_url := Mock.down_url; headers := None;
                transport := None; client := None |} 0 [])
    = (Raised Mock.unreachable,
       bound (conn Mock.down_url None (Some tr) cl) 1
         ([] ++ [CallTransport Mock.down_url None; CallClient tr; CallEnter])).
Proof.
  intros tr cl.
  assert (H : session_enter Mock.engine (new_Client Mock.engine tr) 0
              = (Some Mock.unreachable, cl, 1)) by (vm_compute; reflexivity).
  exact (conj H (lazy_initialization_failure_propagates Mock.engine "{ me { name } }" None
                   Mock.down_url None None 0 [] Mock.unreachable cl 1 H)).
Defined.

Lemma lazy_get_schema_initializes_witness :
  let tr := {| url := Mock.live_url; transport_headers := None |} in
  let cl := {| Mock.of_transport := tr; Mock.fetched := Some Mock.demo_schema |} in
  session_enter Mock.engine (new_Client Mock.engine tr) 0 = (None, cl, 1)
  ∧ session_fetch_schema Mock.engine cl 1 = (None, cl, 2)
  ∧ GraphQLClient_get_schema Mock.engine
      (bound {| endpoint_url := Mock.live_url; headers := None;
                transport := None; client := None |} 0 [])
    = (Ok match schema Mock.engine cl with
          | Some sch => str_schema Mock.engine sch
          | None => "None"
          end,
       bound (conn Mock.live_url None (Some tr) cl) 2
         ([] ++ [CallTransport Mock.live_url None; CallClient tr; CallEnter; CallFetchSchema])).
Proof.
  intros tr cl.
  assert (H1 : session_enter Mock.engine (new_Client Mock.engine tr) 0 = (None, cl, 1))
    by (vm_compute; reflexivity).
  assert (H2 : session_fetch_schema Mock.engine cl 1 = (None, cl, 2))
    by (vm_compute; reflexivity).
  exact (conj H1 (conj H2
    (lazy_get_schema_initializes Mock.engine Mock.live_url None None 0 [] cl 1 cl 2 H1 H2))).
Defined.

Lemma parse_failure_stays_local_witness :
  let e := Exn OtherException "Syntax Error: Unexpected Name." in
  reachable Mock.engine Mock.connected
  ∧ is_Some (graphql_client Mock.connected)
  ∧ PyStr.contains "mutation" (PyStr.lower "me") = false
  ∧ gql Mock.engine "me" = inl e
  ∧ execute_query Mock.engine "me" None Mock.connected
    = (Ok "{'error': 'Unexpected error: Syntax Error: Unexpected Name.'}",
       {| graphql_client := graphql_client Mock.connected; world := world Mock.connected;
          calls := calls Mock.connected ++ [CallGql "me"] |}).
Proof.
  intros e.
  assert (H1 : is_Some (graphql_client Mock.connected)) by (by eexists).
  assert (H2 : PyStr.contains "mutation" (PyStr.lower "me") = false) by reflexivity.
  assert (H3 : gql Mock.engine "me" = inl e) by reflexivity.
  exact (conj connected_reachable (conj H1 (conj H2 (conj H3
    (parse_failure_stays_local Mock.engine Mock.connected "me" None e
       connected_reachable H1 H2 H3))))).
Defined.

Lemma entry_failure_skips_execute_witness :
  let tr := {| url := Mock.down_url; transport_headers := None |} in
  let cl := {| Mock.of_transport := tr; Mock.fetched := None |} in
  let c := conn Mock.down_url None (Some tr) cl in
  graphql_client Mock.down = Some c
  ∧ client c = Some cl
  ∧ PyStr.contains "mutation" (PyStr.lower "{ me { name } }") = false
  ∧ gql Mock.engine "{ me { name } }" = inr "{ me { name } }"
  ∧ session_enter Mock.engine cl (world Mock.down) = (Some Mock.unreachable, cl, 2)
  ∧ execute_query Mock.engine "{ me { name } }" None Mock.down
    = (Ok "{'error': 'Unexpected error: Cannot connect to host'}",
       bound (conn (endpoint_url c) (headers c) (transport c) cl) 2
         (calls Mock.down ++ [CallGql "{ me { name } }"; CallEnter])).
Proof.
  intros tr cl c.
  assert (H1 : graphql_client Mock.down = Some c) by (vm_compute; reflexivity).
  assert (H2 : client c = Some cl) by reflexivity.
  assert (H3 : PyStr.contains "mutation" (PyStr.lower "{ me { name } }") = false)
    by reflexivity.
  assert (H4 : gql Mock.engine "{ me { name } }" = inr "{ me { name } }") by reflexivity.
  assert (H5 : session_enter Mock.engine cl (world Mock.down)
               = (Some Mock.unreachable, cl, 2)) by (vm_compute; reflexivity).
  exact (conj H1 (conj H2 (conj H3 (conj H4 (conj H5
    (entry_failure_skips_execute Mock.engine Mock.down c cl "{ me { name } }" None
       "{ me { name } }" Mock.unreachable cl 2 H1 H2 H3 H4 H5)))))).
Defined.

Lemma mock_fetch_leaves_schema cl w cl' w' :
  session_fetch_schema Mock.engine cl w = (None, cl', w') →
  is_Some (schema Mock.engine cl').
Proof.
  cbn [session_fetch_schema Mock.engine schema]. unfold Mock.fetch.
  destruct (bool_decide _); [|discriminate]. intros [= <- _]. by eexists.
Defined.

Lemma setup_then_introspection_witness :
  (∀ cl w cl' w', session_fetch_schema Mock.engine cl w = (None, cl', w') →
                  is_Some (schema Mock.engine cl'))
  ∧ (setup_connection Mock.engine Mock.live_url None (loaded 0)).1
    = Ok "Successfully connected to GraphQL endpoint"
  ∧ get_schema Mock.engine (setup_connection Mock.engine Mock.live_url None (loaded 0)).2
    = (Ok "<GraphQLSchema>", (setup_connection Mock.engine Mock.live_url None (loaded 0)).2)
  ∧ list_types Mock.engine (setup_connection Mock.engine Mock.live_url None (loaded 0)).2
    = (Ok ("Mutation" +:+ PyStr.NL +:+ "Query" +:+ PyStr.NL +:+ "User"),
       (setup_connection Mock.engine Mock.live_url None (loaded 0)).2).
Proof.
  assert (H : (setup_connection Mock.engine Mock.live_url None (loaded 0)).1
              = Ok "Successfully connected to GraphQL endpoint")
    by (vm_compute; reflexivity).
  split; [exact mock_fetch_leaves_schema|]. split; [exact H|].
  destruct (setup_then_introspection Mock.engine Mock.live_url None (loaded 0)
              mock_fetch_leaves_schema H) as (c & cl & sch & Hc & Hcl & Hsch & Hget & Hlist).
  rewrite Hget, Hlist.
  vm_compute in Hc. injection Hc as <-. injection Hcl as <-. injection Hsch as <-.
  split; vm_compute; reflexivity.
Defined.
